(** * Systemd GUI Dashboard: the collector, the runner and the derived view state

    A shallow embedding of [systemd_gui_dashboard.py]: the command runner
    [run_command], the unit-list collector [get_services_list], the status
    colour [service_state_color] and the button availability computed by
    [ServiceManagerWindow.update_buttons_enabled_state].

    Python values are modelled as follows.
    - A [str] is a list of Unicode code points ([N]); the text primitives the
      program calls ([str.splitlines], [str.split], [str.strip],
      [str.rstrip], [str.join]) are written out with CPython's tables of
      white space and line boundaries.
    - A [dict] is an association list in insertion order with unique keys:
      assigning to an existing key keeps the key's position and replaces
      its value, as CPython does.
    - A call that may raise returns an [outcome]: [subprocess.run] raises
      what the host makes it raise, and indexing a list raises out of
      range, so that "does not raise" is a theorem and not a convention. *)

From Stdlib Require Import String Ascii List NArith ZArith Bool Lia.
From Stdlib Require Import DecimalString.
Import ListNotations.

Set Implicit Arguments.

(** ** Python strings *)

Definition char := N.
Definition str := list char.

(** An ASCII literal of the source as a [str]. *)
Definition lit (s : string) : str := map N_of_ascii (list_ascii_of_string s).

Fixpoint str_eqb (a b : str) : bool :=
  match a, b with
  | [], [] => true
  | x :: a', y :: b' => N.eqb x y && str_eqb a' b'
  | _, _ => false
  end.

(** [not s] for a string or a list [s]. *)
Definition is_empty {A : Type} (s : list A) : bool :=
  match s with [] => true | _ :: _ => false end.

(** [str.isspace] on one code point (CPython's [_PyUnicode_IsWhitespace]). *)
Definition isspace (c : char) : bool :=
  ((9 <=? c) && (c <=? 13) || (28 <=? c) && (c <=? 32)
   || (c =? 133) || (c =? 160) || (c =? 5760)
   || (8192 <=? c) && (c <=? 8202)
   || (c =? 8232) || (c =? 8233) || (c =? 8239) || (c =? 8287)
   || (c =? 12288))%N.

(** The line boundaries of [str.splitlines], CR apart:
    LF, VT, FF, FS, GS, RS, NEL, LS, PS. *)
Definition is_linebreak (c : char) : bool :=
  ((c =? 10) || (c =? 11) || (c =? 12) || (c =? 28) || (c =? 29)
   || (c =? 30) || (c =? 133) || (c =? 8232) || (c =? 8233))%N.

Definition CR : char := 13%N.
Definition LF : char := 10%N.

(** [str.splitlines()]: [cur] is the line being read, reversed.  CR LF is
    one boundary; a boundary at the very end opens no further line. *)
Fixpoint splitlines_from (cur : str) (s : str) : list str :=
  match s with
  | [] => if is_empty cur then [] else [rev cur]
  | c :: rest =>
      if N.eqb c CR then
        match rest with
        | c' :: rest' =>
            if N.eqb c' LF then rev cur :: splitlines_from [] rest'
            else rev cur :: splitlines_from [] rest
        | [] => [rev cur]
        end
      else if is_linebreak c then rev cur :: splitlines_from [] rest
      else splitlines_from (c :: cur) rest
  end.

Definition splitlines (s : str) : list str := splitlines_from [] s.

(** [str.split()] without a separator: [cur] is the token being read,
    reversed.  Runs of white space separate tokens and no token is empty. *)
Fixpoint split_from (cur : str) (s : str) : list str :=
  match s with
  | [] => if is_empty cur then [] else [rev cur]
  | c :: rest =>
      if isspace c then
        if is_empty cur then split_from [] rest
        else rev cur :: split_from [] rest
      else split_from (c :: cur) rest
  end.

Definition split (s : str) : list str := split_from [] s.

Fixpoint lstrip (s : str) : str :=
  match s with
  | [] => []
  | c :: rest => if isspace c then lstrip rest else s
  end.

Definition rstrip (s : str) : str := rev (lstrip (rev s)).

Definition strip (s : str) : str := lstrip (rstrip s).

(** [sep.join(parts)]. *)
Fixpoint join (sep : str) (parts : list str) : str :=
  match parts with
  | [] => []
  | [p] => p
  | p :: ps => p ++ sep ++ join sep ps
  end.

(** ** Python dicts keyed by strings *)

Section PyDict.
Variable V : Type.

Definition pydict := list (str * V).

(** [d.get(k)]. *)
Fixpoint dict_get (k : str) (d : pydict) : option V :=
  match d with
  | [] => None
  | (k', v) :: d' => if str_eqb k' k then Some v else dict_get k d'
  end.

(** [d.get(k, default)]. *)
Definition dict_get_default (k : str) (default : V) (d : pydict) : V :=
  match dict_get k d with Some v => v | None => default end.

(** [k in d]. *)
Definition dict_contains (k : str) (d : pydict) : bool :=
  match dict_get k d with Some _ => true | None => false end.

(** [d[k] = v]: a known key keeps its place, a new one goes last. *)
Fixpoint dict_set (k : str) (v : V) (d : pydict) : pydict :=
  match d with
  | [] => [(k, v)]
  | (k', v') :: d' =>
      if str_eqb k' k then (k', v) :: d' else (k', v') :: dict_set k v d'
  end.

Definition dict_keys (d : pydict) : list str := map fst d.
Definition dict_values (d : pydict) : list V := map snd d.
Definition dict_items (d : pydict) : list (str * V) := d.
End PyDict.

(** ** Exceptions and results *)

(** The exceptions of the [Exception] hierarchy the program meets, each
    with the text [str(ex)] gives. *)
Inductive PyExc : Type :=
| FileNotFoundError (msg : str)
| RuntimeError (msg : str)
| IndexError (msg : str)
| OtherException (msg : str).

Definition exc_str (e : PyExc) : str :=
  match e with
  | FileNotFoundError m | RuntimeError m | IndexError m
  | OtherException m => m
  end.

Inductive outcome (A : Type) : Type :=
| Returned (a : A)
| Raised (e : PyExc).

Arguments Returned {A} a.
Arguments Raised {A} e.

Definition bind {A B : Type} (m : outcome A) (k : A -> outcome B) : outcome B :=
  match m with
  | Returned a => k a
  | Raised e => Raised e
  end.

Notation "x <- m ;; k" := (bind m (fun x => k))
  (at level 61, m at next level, right associativity).
Notation "' pat <- m ;; k" := (bind m (fun x => match x with pat => k end))
  (at level 61, pat pattern, m at next level, right associativity).

(** [parts[i]] on a list: out of range it raises. *)
Definition getitem (parts : list str) (i : nat) : outcome str :=
  match nth_error parts i with
  | Some part => Returned part
  | None => Raised (IndexError (lit "list index out of range"))
  end.

(** [for item in items: state = body(state, item)], stopping at the first
    exception. *)
Fixpoint for_each {S A : Type} (body : S -> A -> outcome S) (items : list A)
    (state : S) : outcome S :=
  match items with
  | [] => Returned state
  | item :: rest => state' <- body state item ;; for_each body rest state'
  end.

(** What [subprocess.run(..., check=False)] hands back on completion. *)
Record CompletedProcess : Type := {
  returncode : Z;
  stdout : str;
  stderr : str
}.

(** ** The service record *)

(** The dict with keys unit, load, active, sub, description, enabled that
    [get_services_list] builds for each service. *)
Record ServiceRecord : Type := {
  svc_unit : str;
  svc_load : str;
  svc_active : str;
  svc_sub : str;
  svc_description : str;
  svc_enabled : str
}.

(** The failure bullet, U+25CF. *)
Definition BULLET : str := [9679%N].

Definition LIST_UNIT_FILES_CMD : list str :=
  [lit "systemctl"; lit "list-unit-files"; lit "--type=service";
   lit "--no-legend"; lit "--no-pager"].

Definition LIST_UNITS_CMD : list str :=
  [lit "systemctl"; lit "list-units"; lit "--type=service"; lit "--all";
   lit "--no-legend"; lit "--no-pager"].

(** ** The program, over the host's [subprocess.run] *)

Section Program.
(** The host: what [subprocess.run] does with an argument vector. *)
Variable subprocess_run : list str -> outcome CompletedProcess.

(** The argument vector [run_command] hands to [subprocess.run]: the local
    [full_cmd] at the point of the call. *)
Definition full_cmd (command : list str) (require_root : bool) : list str :=
  let full_cmd := command in
  if require_root
  then [lit "pkexec"; lit "/usr/bin/systemctl"] ++ skipn 1 command
  else full_cmd.

Definition run_command (command : list str) (require_root : bool)
  : outcome (Z * str * str) :=
  match subprocess_run (full_cmd command require_root) with
  | Returned proc => Returned (returncode proc, stdout proc, stderr proc)
  | Raised (FileNotFoundError ex) =>
      Returned (1%Z, [], lit "Command not found: " ++ ex)
  | Raised ex =>
      Returned (1%Z, [], lit "Unexpected error: " ++ exc_str ex)
  end.

(** The body of the loop over the lines of [list-unit-files]; [continue]
    hands the mapping back as it is. *)
Definition enabled_map_step (enabled_map : pydict str) (line : str)
  : outcome (pydict str) :=
  let line := strip line in
  if is_empty line then Returned enabled_map
  else
    let parts := split line in
    if (length parts <? 2)%nat then Returned enabled_map
    else
      unit_file <- getitem parts 0 ;;
      state <- getitem parts 1 ;;
      Returned (dict_set unit_file state enabled_map).

(** Step 1: the mapping from the exit code and output of
    [list-unit-files]. *)
Definition build_enabled_map (code : Z) (out : str) : outcome (pydict str) :=
  let enabled_map : pydict str := [] in
  if (code =? 0)%Z
  then for_each enabled_map_step (splitlines out) enabled_map
  else Returned [].

(** The body of the loop over the lines of [list-units]. *)
Definition runtime_step (enabled_map : pydict str)
    (runtime_services : pydict ServiceRecord) (line : str)
  : outcome (pydict ServiceRecord) :=
  let line := rstrip line in
  if is_empty line then Returned runtime_services
  else
    let parts := split line in
    bullet <-
      (if negb (is_empty parts)
       then first <- getitem parts 0 ;; Returned (str_eqb first BULLET)
       else Returned false) ;;
    let parts := if (bullet : bool) then skipn 1 parts else parts in
    if (length parts <? 5)%nat then Returned runtime_services
    else
      unit <- getitem parts 0 ;;
      load <- getitem parts 1 ;;
      active <- getitem parts 2 ;;
      sub <- getitem parts 3 ;;
      let description := join (lit " ") (skipn 4 parts) in
      let enabled_state := dict_get_default unit (lit "?") enabled_map in
      Returned
        (dict_set unit
           {| svc_unit := unit; svc_load := load; svc_active := active;
              svc_sub := sub; svc_description := description;
              svc_enabled := enabled_state |}
           runtime_services).

(** Step 2, after the exit code is checked: the mapping of the live units
    from the output of [list-units]. *)
Definition build_runtime_services (enabled_map : pydict str) (out : str)
  : outcome (pydict ServiceRecord) :=
  for_each (runtime_step enabled_map) (splitlines out) [].

(** The record appended for a unit file that is not loaded. *)
Definition not_loaded (unit state : str) : ServiceRecord :=
  {| svc_unit := unit; svc_load := lit "n/a"; svc_active := lit "inactive";
     svc_sub := lit "dead";
     svc_description := lit "Not loaded (available to enable/start)";
     svc_enabled := state |}.

(** Step 3: [services] after the live records are added and the loop over
    the items of the enablement mapping has run. *)
Definition merge_services (services : list ServiceRecord)
    (enabled_map : pydict str) (runtime_services : pydict ServiceRecord)
  : list ServiceRecord :=
  let services := services ++ dict_values runtime_services in
  fold_left
    (fun services (item : str * str) =>
       let (unit, state) := item in
       if dict_contains unit runtime_services then services
       else services ++ [not_loaded unit state])
    (dict_items enabled_map) services.

Definition get_services_list : outcome (list ServiceRecord) :=
  let services : list ServiceRecord := [] in
  ' (code, out, err) <- run_command LIST_UNIT_FILES_CMD false ;;
  enabled_map <- build_enabled_map code out ;;
  ' (code, out, err) <- run_command LIST_UNITS_CMD false ;;
  if negb (code =? 0)%Z
  then Raised (RuntimeError (lit "Failed to list services:" ++ err))
  else
    runtime_services <- build_runtime_services enabled_map out ;;
    Returned (merge_services services enabled_map runtime_services).

Definition get_service_status (unit : str) : outcome str :=
  ' (code, out, err) <-
      run_command [lit "systemctl"; lit "status"; unit; lit "--no-pager"]
        false ;;
  if (code =? 0)%Z then Returned out
  else Returned (out ++ [LF] ++ err).
End Program.

(** ** The presentation layer *)

(** [QColor(name)]: only the name it was built from matters here. *)
Inductive QColor : Type := QColor_of (name : str).

Definition service_state_color (active_state enabled_state : str) : QColor :=
  if str_eqb enabled_state (lit "disabled") || str_eqb enabled_state (lit "masked")
  then QColor_of (lit "black")
  else if str_eqb active_state (lit "active") then QColor_of (lit "green")
  else QColor_of (lit "red").

(** The nine push buttons of the window. *)
Inductive Button : Type :=
| start_button | stop_button | restart_button | reload_button
| enable_button | disable_button | mask_button | unmask_button
| status_button.

Definition Button_eqb (a b : Button) : bool :=
  match a, b with
  | start_button, start_button | stop_button, stop_button
  | restart_button, restart_button | reload_button, reload_button
  | enable_button, enable_button | disable_button, disable_button
  | mask_button, mask_button | unmask_button, unmask_button
  | status_button, status_button => true
  | _, _ => false
  end.

(** The part of the window the derived state reads and writes:
    - [model]: the rows of the [QStandardItemModel], each a list of cell
      texts;
    - [selection_model]: [None] when the table view has no selection model,
      else the source rows of [selectedRows()] (through the proxy);
    - [isEnabled]: the enabled flag of each button. *)
Record ServiceManagerWindow : Type := {
  model : list (list str);
  selection_model : option (list nat);
  isEnabled : Button -> bool
}.

(** [btn.setEnabled(v)]. *)
Definition setEnabled (btn : Button) (v : bool) (w : ServiceManagerWindow)
  : ServiceManagerWindow :=
  {| model := model w;
     selection_model := selection_model w;
     isEnabled := fun b => if Button_eqb b btn then v else isEnabled w b |}.

(** [self.model.data(self.model.index(row, column))]: [None] off the table. *)
Definition model_data (w : ServiceManagerWindow) (row column : nat)
  : option str :=
  match nth_error (model w) row with
  | Some cells => nth_error cells column
  | None => None
  end.

(** The row [populate_model] appends for one service; the last cell is the
    colour indicator, whose text is empty. *)
Definition row_items (svc : ServiceRecord) : list str :=
  [svc_unit svc; svc_description svc; svc_load svc; svc_active svc;
   svc_sub svc; svc_enabled svc; []].

Definition populate_model (services : list ServiceRecord)
    (w : ServiceManagerWindow) : ServiceManagerWindow :=
  {| model := fold_left (fun rows svc => rows ++ [row_items svc]) services [];
     selection_model := selection_model w;
     isEnabled := isEnabled w |}.

Definition get_selected_unit (w : ServiceManagerWindow) : str :=
  match selection_model w with
  | None => []
  | Some indexes =>
      match indexes with
      | [] => []
      | source_row :: _ =>
          match model_data w source_row 0 with
          | None => []
          | Some unit => if is_empty unit then [] else unit
          end
      end
  end.

(** The pair (active, enabled) of the dict [get_selected_row_states]
    returns. *)
Definition get_selected_row_states (w : ServiceManagerWindow) : str * str :=
  let info : str * str := ([], []) in
  match selection_model w with
  | None => info
  | Some indexes =>
      match indexes with
      | [] => info
      | source_row :: _ =>
          let active :=
            match model_data w source_row 3 with Some a => a | None => [] end in
          let enabled :=
            match model_data w source_row 5 with Some e => e | None => [] end in
          (active, enabled)
      end
  end.

Definition all_buttons : list Button :=
  [start_button; stop_button; restart_button; reload_button; enable_button;
   disable_button; mask_button; unmask_button; status_button].

Definition update_buttons_enabled_state (w : ServiceManagerWindow)
  : ServiceManagerWindow :=
  let unit := get_selected_unit w in
  let has_selection := negb (is_empty unit) in
  let state := get_selected_row_states w in
  let active_state := fst state in
  let enabled_state := snd state in
  let w := fold_left (fun w btn => setEnabled btn has_selection w) all_buttons w in
  if negb has_selection then w
  else
    let w :=
      if str_eqb active_state (lit "active") then
        let w := setEnabled start_button false w in
        let w := setEnabled stop_button true w in
        let w := setEnabled restart_button true w in
        setEnabled reload_button true w
      else
        let w := setEnabled start_button true w in
        let w := setEnabled stop_button false w in
        let w := setEnabled restart_button false w in
        setEnabled reload_button true w in
    if str_eqb enabled_state (lit "enabled") then
      let w := setEnabled enable_button false w in
      let w := setEnabled disable_button true w in
      let w := setEnabled mask_button true w in
      setEnabled unmask_button false w
    else if str_eqb enabled_state (lit "disabled") then
      let w := setEnabled enable_button true w in
      let w := setEnabled disable_button false w in
      let w := setEnabled mask_button true w in
      setEnabled unmask_button false w
    else if str_eqb enabled_state (lit "masked") then
      let w := setEnabled enable_button false w in
      let w := setEnabled disable_button false w in
      let w := setEnabled mask_button false w in
      setEnabled unmask_button true w
    else
      let w := setEnabled enable_button true w in
      let w := setEnabled disable_button true w in
      let w := setEnabled mask_button true w in
      setEnabled unmask_button true w.

(** ** Views of the two loops used in the statements *)

(** The tokens of a [list-units] line once the optional leading bullet is
    dropped: [parts] as the length test of the loop sees it. *)
Definition unit_line_parts (line : str) : list str :=
  let parts := split line in
  if negb (is_empty parts) && str_eqb (nth 0 parts []) BULLET
  then skipn 1 parts else parts.

(** The record the loop stores for a line, [None] for a line it skips. *)
Definition parse_unit_line (enabled_map : pydict str) (line : str)
  : option ServiceRecord :=
  let parts := unit_line_parts line in
  if (length parts <? 5)%nat then None
  else
    Some {| svc_unit := nth 0 parts [];
            svc_load := nth 1 parts [];
            svc_active := nth 2 parts [];
            svc_sub := nth 3 parts [];
            svc_description := join (lit " ") (skipn 4 parts);
            svc_enabled :=
              dict_get_default (nth 0 parts []) (lit "?") enabled_map |}.

(** What a line of [list-unit-files] does to the mapping, by its tokens. *)
Definition enabled_map_next (enabled_map : pydict str) (line : str)
  : pydict str :=
  match split line with
  | unit_file :: state :: _ => dict_set unit_file state enabled_map
  | _ => enabled_map
  end.

(** What a line of [list-units] does to the mapping, by its record. *)
Definition runtime_next (enabled_map : pydict str)
    (runtime_services : pydict ServiceRecord) (line : str)
  : pydict ServiceRecord :=
  match parse_unit_line enabled_map line with
  | Some r => dict_set (svc_unit r) r runtime_services
  | None => runtime_services
  end.

(** The value of [build_enabled_map]. *)
Definition enabled_map_of (code : Z) (out : str) : pydict str :=
  if (code =? 0)%Z then fold_left enabled_map_next (splitlines out) [] else [].

(** The value of [build_runtime_services]. *)
Definition runtime_services_of (enabled_map : pydict str) (out : str)
  : pydict ServiceRecord :=
  fold_left (runtime_next enabled_map) (splitlines out) [].

(** The records a list of services holds for the unit [u]. *)
Definition records_of (u : str) (services : list ServiceRecord)
  : list ServiceRecord :=
  filter (fun r => str_eqb (svc_unit r) u) services.

(** The items of the enablement mapping whose unit is not a live unit. *)
Definition install_only (runtime_services : pydict ServiceRecord)
    (enabled_map : pydict str) : list (str * str) :=
  filter (fun item => negb (dict_contains (fst item) runtime_services))
    (dict_items enabled_map).

(** What the last loop of [get_services_list] appends. *)
Definition merged_tail (runtime_services : pydict ServiceRecord)
    (items : list (str * str)) : list ServiceRecord :=
  map (fun item => not_loaded (fst item) (snd item))
    (filter (fun item => negb (dict_contains (fst item) runtime_services)) items).

(** The list [get_services_list] returns from the two mappings. *)
Definition merged (enabled_map : pydict str)
    (runtime_services : pydict ServiceRecord) : list ServiceRecord :=
  dict_values runtime_services ++
  merged_tail runtime_services (dict_items enabled_map).

(** What holds of every entry of [runtime_services] all along the loop. *)
Definition runtime_entry_ok (enabled_map : pydict str)
    (entry : str * ServiceRecord) : Prop :=
  svc_unit (snd entry) = fst entry /\
  svc_enabled (snd entry) = dict_get_default (fst entry) (lit "?") enabled_map /\
  fst entry <> [].

(** ** Sample hosts *)

Definition NL : str := [LF].

Fixpoint cmd_eqb (a b : list str) : bool :=
  match a, b with
  | [], [] => true
  | x :: a', y :: b' => str_eqb x y && cmd_eqb a' b'
  | _, _ => false
  end.

(** A host that answers the two listing commands as given and knows no
    other executable. *)
Definition host_of (unit_files units : outcome CompletedProcess)
    (cmd : list str) : outcome CompletedProcess :=
  if cmd_eqb cmd LIST_UNIT_FILES_CMD then unit_files
  else if cmd_eqb cmd LIST_UNITS_CMD then units
  else Raised (FileNotFoundError (lit "[Errno 2] No such file or directory")).

Definition completed (code : Z) (out err : str) : outcome CompletedProcess :=
  Returned {| returncode := code; stdout := out; stderr := err |}.

Definition sample_unit_files : str :=
  lit "ssh.service enabled enabled" ++ NL ++
  lit "foo.service disabled enabled" ++ NL ++
  lit "foo.service masked" ++ NL.

Definition sample_units : str :=
  lit "ssh.service loaded active running OpenBSD Secure Shell server" ++ NL ++
  BULLET ++ lit " x.service loaded failed failed X" ++ NL ++
  lit "short line" ++ NL.

Definition sample_host : list str -> outcome CompletedProcess :=
  host_of (completed 0 sample_unit_files []) (completed 0 sample_units []).

Definition files_fail_host : list str -> outcome CompletedProcess :=
  host_of (completed 1 sample_unit_files (lit "Failed to connect to bus"))
    (completed 0 sample_units []).

Definition units_fail_host : list str -> outcome CompletedProcess :=
  host_of (completed 0 sample_unit_files [])
    (completed 1 sample_units (lit "Failed to connect to bus")).

(** The live units of [sample_units] without the line that is too short. *)
Definition sample_units_clean : str :=
  lit "ssh.service loaded active running OpenBSD Secure Shell server" ++ NL ++
  BULLET ++ lit " x.service loaded failed failed X" ++ NL.

Definition sample_host_clean : list str -> outcome CompletedProcess :=
  host_of (completed 0 sample_unit_files []) (completed 0 sample_units_clean []).

(** A failed unit as the manager prints it, and the same line without the
    bullet. *)
Definition bullet_line : str :=
  BULLET ++ lit " x.service loaded failed failed X failed". 
Definition plain_line : str := lit "x.service loaded failed failed X failed".

(** A line whose first field after the bullet is a bullet again, and the
    same line without its leading bullet. *)
Definition two_bullets_line : str := BULLET ++ lit " " ++ BULLET ++ lit " a b c d e".
Definition one_bullet_line : str := BULLET ++ lit " a b c d e".

(** A host on which neither [pkexec] nor [systemctl] is installed. *)
Definition bare_host (cmd : list str) : outcome CompletedProcess :=
  Raised (FileNotFoundError
            (lit "[Errno 2] No such file or directory: " ++ nth 0 cmd [])).

(** A host on which the executable is there and may not be run. *)
Definition locked_host (cmd : list str) : outcome CompletedProcess :=
  Raised (OtherException (lit "[Errno 13] Permission denied: " ++ nth 0 cmd [])).

(** A host that records the argument vector in the standard output. *)
Definition echo_host (cmd : list str) : outcome CompletedProcess :=
  completed 0 (join (lit " ") cmd) [].

(** A window showing the merged list of [sample_host] with its second row
    selected and every button off. *)
Definition sample_services : list ServiceRecord :=
  match get_services_list sample_host with
  | Returned services => services
  | Raised _ => []
  end.

Definition sample_window : ServiceManagerWindow :=
  {| model := map row_items sample_services;
     selection_model := Some [1];
     isEnabled := fun _ => false |}.

(** ** The units of the two outputs, in order *)

(** [x in l] for a list of strings. *)
Definition mem (x : str) (l : list str) : bool := existsb (str_eqb x) l.

(** A list without its repeats, each element where it first stands. *)
Definition add_distinct (acc : list str) (x : str) : list str :=
  if mem x acc then acc else acc ++ [x].

Definition distinct_in_order (l : list str) : list str :=
  fold_left add_distinct l [].

(** The units of the lines of [list-units] the loop accepts, line by line. *)
Definition live_units (lines : list str) : list str :=
  flat_map
    (fun line =>
       let parts := unit_line_parts line in
       if (length parts <? 5)%nat then [] else [nth 0 parts []])
    lines.

(** The unit files of the lines of [list-unit-files] the loop accepts. *)
Definition unit_files (lines : list str) : list str :=
  flat_map
    (fun line =>
       match split line with
       | unit_file :: _ :: _ => [unit_file]
       | _ => []
       end)
    lines.

(** A record written back as a line of [list-units]: its five columns
    with one space between them. *)
Definition render (r : ServiceRecord) : str :=
  join (lit " ")
    [svc_unit r; svc_load r; svc_active r; svc_sub r; svc_description r].

(** A token: not empty and free of white space. *)
Definition is_token (t : str) : bool :=
  negb (is_empty t) && forallb (fun c => negb (isspace c)) t.

(** The sample window with every button on, and with a selection left
    over from a longer table. *)
Definition sample_window_all_on : ServiceManagerWindow :=
  {| model := map row_items sample_services;
     selection_model := Some [1];
     isEnabled := fun _ => true |}.

Definition sample_window_stale : ServiceManagerWindow :=
  {| model := map row_items sample_services;
     selection_model := Some [3];
     isEnabled := fun _ => true |}.

(** A live-units output that names a unit twice, on a host whose
    enablement listing fails. *)
Definition repeat_units : str :=
  lit "a.service loaded active running First" ++ NL ++
  lit "a.service loaded failed failed Second".

Definition repeat_host : list str -> outcome CompletedProcess :=
  host_of (completed 1 [] []) (completed 0 repeat_units []).

Definition repeat_record : ServiceRecord :=
  {| svc_unit := lit "a.service"; svc_load := lit "loaded";
     svc_active := lit "failed"; svc_sub := lit "failed";
     svc_description := lit "Second"; svc_enabled := lit "?" |}.

(** ** The calls the window's methods make *)

(** A method of the window is modelled by the calls its body makes on the
    user interface, in order, and by how it ends.  What Qt does in answer to
    a call (a signal it emits, a dialog it waits on) is not part of the
    model. *)
Inductive UiCall : Type :=
| statusBar_showMessage (message : str)
| setOverrideCursor
| restoreOverrideCursor
| QMessageBox_warning (title text : str)
| QMessageBox_critical (title text : str)
| QMessageBox_information (title text : str)
| call_populate_model (services : list ServiceRecord)
| call_update_buttons_enabled_state
| details_edit_clear
| details_edit_setPlainText (text : str).

Definition ui (A : Type) : Type := (list UiCall * outcome A)%type.

Definition ui_call (c : UiCall) : ui unit := ([c], Returned tt).

Definition ui_lift {A : Type} (m : outcome A) : ui A := ([], m).

Definition ui_bind {A B : Type} (m : ui A) (k : A -> ui B) : ui B :=
  match snd m with
  | Returned a => (fst m ++ fst (k a), snd (k a))
  | Raised e => (fst m, Raised e)
  end.

Notation "m >> k" := (ui_bind m (fun _ => k))
  (at level 62, right associativity).

(** [str(n)] for an integer, as an f-string prints it. *)
Definition str_of_Z (n : Z) : str := lit (NilEmpty.string_of_int (Z.to_int n)).

Definition valid_actions : list str :=
  [lit "start"; lit "stop"; lit "restart"; lit "reload"; lit "enable";
   lit "disable"; lit "mask"; lit "unmask"].

Section Methods.
Variable subprocess_run : list str -> outcome CompletedProcess.

(** [except Exception] takes every exception of the model; the
    [finally] clause runs on both ways out. *)
Definition refresh_services : ui unit :=
  ui_call (statusBar_showMessage (lit "Loading services...")) >>
  ui_call setOverrideCursor >>
  match get_services_list subprocess_run with
  | Returned services =>
      ui_call (call_populate_model services) >>
      ui_call (statusBar_showMessage
                 (lit "Loaded " ++ str_of_Z (Z.of_nat (length services)) ++
                  lit " services.")) >>
      ui_call restoreOverrideCursor >>
      ui_call call_update_buttons_enabled_state >>
      ui_call details_edit_clear
  | Raised ex =>
      ui_call restoreOverrideCursor >>
      ui_call (statusBar_showMessage (lit "Error loading services.")) >>
      ui_call (QMessageBox_critical (lit "Error")
                 (lit "Failed to load services:" ++ [LF] ++ exc_str ex)) >>
      ui_call restoreOverrideCursor
  end.

Definition run_action (w : ServiceManagerWindow) (action : str) : ui unit :=
  let unit := get_selected_unit w in
  if is_empty unit then
    ui_call (QMessageBox_warning (lit "No selection")
               (lit "Please select a service first."))
  else if negb (mem action valid_actions) then
    ui_call (QMessageBox_critical (lit "Error")
               (lit "Invalid action: " ++ action))
  else
    ui_call (statusBar_showMessage
               (lit "Running '" ++ action ++ lit "' on " ++ unit ++ lit "...")) >>
    ui_call setOverrideCursor >>
    ui_bind (ui_lift (run_command subprocess_run
                        [lit "systemctl"; action; unit] true))
      (fun result =>
         let '(code, out, err) := result in
         ui_call restoreOverrideCursor >>
         if (code =? 0)%Z then
           ui_call (statusBar_showMessage
                      (lit "Action '" ++ action ++
                       lit "' completed successfully for " ++ unit ++ lit ".")) >>
           refresh_services >>
           ui_call (QMessageBox_information (lit "Success")
                      (lit "Action '" ++ action ++
                       lit "' completed successfully for:" ++ [LF] ++ unit))
         else
           ui_call (statusBar_showMessage
                      (lit "Action '" ++ action ++ lit "' failed for " ++
                       unit ++ lit ".")) >>
           ui_call (QMessageBox_critical (lit "Error")
                      (lit "Action '" ++ action ++ lit "' failed for " ++
                       unit ++ lit " (exit code " ++ str_of_Z code ++ lit ")." ++
                       [LF; LF] ++ lit "Output:" ++ [LF] ++ out ++
                       [LF; LF] ++ lit "Errors:" ++ [LF] ++ err))).

Definition show_status_for_selected (w : ServiceManagerWindow) (auto : bool)
  : ui unit :=
  let unit := get_selected_unit w in
  if is_empty unit then
    (if negb auto
     then ui_call (QMessageBox_warning (lit "No selection")
                     (lit "Please select a service first."))
     else ([], Returned tt)) >>
    ui_call details_edit_clear
  else
    ui_call (statusBar_showMessage
               (lit "Loading status for " ++ unit ++ lit "...")) >>
    ui_call setOverrideCursor >>
    ui_bind (ui_lift (get_service_status subprocess_run unit))
      (fun status_text =>
         ui_call restoreOverrideCursor >>
         ui_call (details_edit_setPlainText status_text) >>
         ui_call (statusBar_showMessage
                    (lit "Status loaded for " ++ unit ++ lit "."))).

Definition on_selection_changed (w : ServiceManagerWindow) : ui unit :=
  ui_call call_update_buttons_enabled_state >>
  show_status_for_selected w true.

Definition on_row_double_clicked (w : ServiceManagerWindow) : ui unit :=
  show_status_for_selected w false.
End Methods.

(** The override cursors left on the stack after a run of calls, from a
    stack of [depth]; restoring with none set does nothing. *)
Definition cursor_depth (calls : list UiCall) (depth : nat) : nat :=
  fold_left
    (fun depth c =>
       match c with
       | setOverrideCursor => S depth
       | restoreOverrideCursor => pred depth
       | _ => depth
       end)
    calls depth.

(** A host on which the service manager refuses every action. *)
Definition refusing_host (cmd : list str) : outcome CompletedProcess :=
  completed 4 [] (lit "Access denied").

(** ** Strings *)

Lemma str_eqb_eq (a b : str) : str_eqb a b = true <-> a = b.
Proof.
  revert b; induction a as [|x a IH]; intros [|y b]; simpl;
    try (split; [discriminate | discriminate]);
    try (split; reflexivity).
  rewrite andb_true_iff, N.eqb_eq, IH.
  split; [intros [-> ->]; reflexivity | intros H; injection H; auto].
Qed.

Lemma str_eqb_refl (a : str) : str_eqb a a = true.
Proof. apply str_eqb_eq; reflexivity. Qed.

Lemma str_eqb_neq (a b : str) : str_eqb a b = false <-> a <> b.
Proof.
  split.
  - intros H E; apply str_eqb_eq in E; congruence.
  - intros H; destruct (str_eqb a b) eqn:E; [|reflexivity].
    apply str_eqb_eq in E; contradiction.
Qed.

Lemma str_eqb_sym (a b : str) : str_eqb a b = str_eqb b a.
Proof.
  destruct (str_eqb a b) eqn:E; symmetry.
  - apply str_eqb_eq; apply str_eqb_eq in E; auto.
  - apply str_eqb_neq; apply str_eqb_neq in E; auto.
Qed.

Ltac str_cases a b :=
  let E := fresh "E" in
  destruct (str_eqb a b) eqn:E;
  [apply str_eqb_eq in E | apply str_eqb_neq in E].

(** White space at the end of a text opens no token. *)
Lemma split_from_spaces (ws : str) :
  forallb isspace ws = true ->
  forall cur, split_from cur ws = split_from cur [].
Proof.
  induction ws as [|c ws IH]; intros H cur; [reflexivity|].
  simpl in H; apply andb_true_iff in H as [Hc Hws].
  simpl; rewrite Hc.
  destruct cur; simpl; rewrite (IH Hws); reflexivity.
Qed.

Lemma split_from_app_spaces (s ws : str) :
  forallb isspace ws = true ->
  forall cur, split_from cur (s ++ ws) = split_from cur s.
Proof.
  intros Hws; induction s as [|c s IH]; intros cur.
  - simpl app. rewrite (split_from_spaces ws Hws); reflexivity.
  - simpl. destruct (isspace c); [destruct (is_empty cur)|];
      rewrite ?IH; reflexivity.
Qed.

(** White space at the start of a text opens no token either. *)
Lemma split_spaces_app (ws s : str) :
  forallb isspace ws = true -> split (ws ++ s) = split s.
Proof.
  unfold split; induction ws as [|c ws IH]; intros H; [reflexivity|].
  simpl in H; apply andb_true_iff in H as [Hc Hws].
  simpl; rewrite Hc; auto.
Qed.

Lemma lstrip_decomp (s : str) :
  exists ws, forallb isspace ws = true /\ s = ws ++ lstrip s.
Proof.
  induction s as [|c s [ws [Hws E]]].
  - exists []; auto.
  - simpl; destruct (isspace c) eqn:Hc.
    + exists (c :: ws); simpl; rewrite Hc, Hws; split; [reflexivity|].
      f_equal; exact E.
    + exists []; auto.
Qed.

Lemma rstrip_decomp (s : str) :
  exists ws, forallb isspace ws = true /\ s = rstrip s ++ ws.
Proof.
  unfold rstrip.
  destruct (lstrip_decomp (rev s)) as [ws [Hws E]].
  exists (rev ws); split.
  - rewrite forallb_forall in *; intros c Hc; apply Hws, in_rev, Hc.
  - rewrite <- rev_app_distr, <- E, rev_involutive; reflexivity.
Qed.

Lemma split_lstrip (s : str) : split (lstrip s) = split s.
Proof.
  destruct (lstrip_decomp s) as [ws [Hws E]].
  rewrite E at 2; symmetry; apply split_spaces_app, Hws.
Qed.

Lemma split_rstrip (s : str) : split (rstrip s) = split s.
Proof.
  destruct (rstrip_decomp s) as [ws [Hws E]].
  rewrite E at 2; unfold split; symmetry; apply split_from_app_spaces, Hws.
Qed.

Lemma split_strip (s : str) : split (strip s) = split s.
Proof. unfold strip; rewrite split_lstrip; apply split_rstrip. Qed.

(** A line that strips to nothing has no token. *)
Lemma rstrip_empty_split (s : str) : is_empty (rstrip s) = true -> split s = [].
Proof.
  intros H; rewrite <- split_rstrip.
  destruct (rstrip s); [reflexivity | discriminate].
Qed.

Lemma strip_empty_split (s : str) : is_empty (strip s) = true -> split s = [].
Proof.
  intros H; rewrite <- split_strip.
  destruct (strip s); [reflexivity | discriminate].
Qed.

(** No token of [split] is empty. *)
Lemma split_from_nonempty (s : str) :
  forall cur t, In t (split_from cur s) -> t <> [].
Proof.
  assert (R : forall cur : str, is_empty cur = false -> rev cur <> []).
  { intros [|c cur] H; [discriminate|]; simpl; intros E.
    apply app_eq_nil in E as [_ E]; discriminate. }
  induction s as [|c s IH]; intros cur t; simpl.
  - destruct (is_empty cur) eqn:E; simpl; [tauto|].
    intros [<-|[]]; apply R, E.
  - destruct (isspace c).
    + destruct (is_empty cur) eqn:E; simpl; [apply IH|].
      intros [<-|H]; [apply R, E | eapply IH, H].
    + apply IH.
Qed.

Lemma split_nonempty (s t : str) : In t (split s) -> t <> [].
Proof. apply split_from_nonempty. Qed.

(** ** The two loop bodies never raise *)

Lemma for_each_returns (S A : Type) (body : S -> A -> outcome S)
    (next : S -> A -> S) (items : list A) :
  (forall state item, body state item = Returned (next state item)) ->
  forall state, for_each body items state = Returned (fold_left next items state).
Proof.
  intros H; induction items as [|item rest IH]; intros state; simpl.
  - reflexivity.
  - rewrite H; simpl; apply IH.
Qed.

Lemma enabled_map_step_returns (enabled_map : pydict str) (line : str) :
  enabled_map_step enabled_map line
  = Returned (enabled_map_next enabled_map line).
Proof.
  unfold enabled_map_step, enabled_map_next.
  destruct (is_empty (strip line)) eqn:E.
  - rewrite (strip_empty_split line E); reflexivity.
  - rewrite split_strip.
    destruct (split line) as [|u [|s rest]]; reflexivity.
Qed.

Lemma runtime_step_returns (enabled_map : pydict str)
    (runtime_services : pydict ServiceRecord) (line : str) :
  runtime_step enabled_map runtime_services line
  = Returned (runtime_next enabled_map runtime_services line).
Proof.
  unfold runtime_step, runtime_next, parse_unit_line, unit_line_parts.
  destruct (is_empty (rstrip line)) eqn:E.
  - rewrite (rstrip_empty_split line E); reflexivity.
  - rewrite split_rstrip.
    destruct (split line) as [|first parts]; [reflexivity|].
    cbn [is_empty negb getitem nth_error bind nth andb].
    destruct (str_eqb first BULLET).
    + destruct parts as [|a [|b [|c [|d [|e rest]]]]]; reflexivity.
    + destruct parts as [|b [|c [|d [|e rest]]]]; reflexivity.
Qed.

Lemma build_enabled_map_returns (code : Z) (out : str) :
  build_enabled_map code out = Returned (enabled_map_of code out).
Proof.
  unfold build_enabled_map, enabled_map_of.
  destruct (code =? 0)%Z; [|reflexivity].
  apply for_each_returns, enabled_map_step_returns.
Qed.

Lemma build_runtime_services_returns (enabled_map : pydict str) (out : str) :
  build_runtime_services enabled_map out
  = Returned (runtime_services_of enabled_map out).
Proof. apply for_each_returns, runtime_step_returns. Qed.

(** ** Dicts *)

Section PyDictFacts.
Variable V : Type.
Implicit Types (d : pydict V) (k : str) (v : V).

Lemma dict_get_set_same d k v : dict_get k (dict_set k v d) = Some v.
Proof.
  induction d as [|[k' v'] d IH]; simpl.
  - rewrite str_eqb_refl; reflexivity.
  - destruct (str_eqb k' k) eqn:E; simpl; rewrite E; auto.
Qed.

Lemma dict_get_set_other d k k' v :
  k <> k' -> dict_get k' (dict_set k v d) = dict_get k' d.
Proof.
  intros N; induction d as [|[k0 v0] d IH]; simpl.
  - apply str_eqb_neq in N; rewrite N; reflexivity.
  - str_cases k0 k; simpl.
    + subst k0. apply str_eqb_neq in N; rewrite N; reflexivity.
    + rewrite IH; reflexivity.
Qed.

Lemma dict_get_In d k v : dict_get k d = Some v -> In (k, v) d.
Proof.
  induction d as [|[k' v'] d IH]; simpl; [discriminate|].
  str_cases k' k.
  - intros [= ->]; left; subst; reflexivity.
  - intros H; right; auto.
Qed.

Lemma dict_get_None d k : dict_get k d = None <-> ~ In k (dict_keys d).
Proof.
  induction d as [|[k' v'] d IH]; simpl; [tauto|].
  str_cases k' k.
  - split; [discriminate | intros H; exfalso; apply H; auto].
  - rewrite IH; tauto.
Qed.

Lemma dict_contains_keys d k :
  dict_contains k d = true <-> In k (dict_keys d).
Proof.
  unfold dict_contains.
  destruct (dict_get k d) eqn:E.
  - split; [intros _|reflexivity].
    apply dict_get_In in E. apply (in_map fst) in E; exact E.
  - split; [discriminate|]. intros H; apply dict_get_None in E; contradiction.
Qed.

Lemma In_dict_get d k v :
  NoDup (dict_keys d) -> In (k, v) d -> dict_get k d = Some v.
Proof.
  induction d as [|[k' v'] d IH]; simpl; [tauto|].
  intros ND H; inversion ND as [|? ? Hk ND']; subst.
  destruct H as [[= -> ->]|H].
  - rewrite str_eqb_refl; reflexivity.
  - str_cases k' k.
    + subst k'. exfalso; apply Hk. apply (in_map fst) in H; exact H.
    + auto.
Qed.

(** Assignment adds the key at the end, or leaves the keys as they are. *)
Lemma dict_keys_set d k v :
  dict_keys (dict_set k v d) =
  if dict_contains k d then dict_keys d else dict_keys d ++ [k].
Proof.
  unfold dict_contains.
  induction d as [|[k' v'] d IH]; simpl; [reflexivity|].
  str_cases k' k; simpl; [reflexivity|].
  rewrite IH; destruct (dict_get k d); reflexivity.
Qed.

Lemma dict_set_NoDup d k v :
  NoDup (dict_keys d) -> NoDup (dict_keys (dict_set k v d)).
Proof.
  intros ND; rewrite dict_keys_set.
  destruct (dict_contains k d) eqn:E; [exact ND|].
  apply NoDup_app; [exact ND | repeat constructor; simpl; tauto |].
  intros x Hx [<-|[]].
  apply dict_contains_keys in Hx; congruence.
Qed.

Lemma dict_set_In d k v k' v' :
  In (k', v') (dict_set k v d) -> (k' = k /\ v' = v) \/ In (k', v') d.
Proof.
  induction d as [|[k0 v0] d IH]; simpl.
  - intros [[= <- <-]|[]]; auto.
  - str_cases k0 k; simpl.
    + intros [[= <- <-]|H]; auto.
    + intros [H|H]; auto. destruct (IH H); auto.
Qed.

Lemma dict_contains_set d k v k' :
  dict_contains k' (dict_set k v d) = str_eqb k k' || dict_contains k' d.
Proof.
  unfold dict_contains.
  str_cases k k'.
  - subst; rewrite dict_get_set_same; reflexivity.
  - rewrite dict_get_set_other by assumption; reflexivity.
Qed.
End PyDictFacts.

(** ** The enablement mapping *)

Lemma enabled_map_next_NoDup (enabled_map : pydict str) (line : str) :
  NoDup (dict_keys enabled_map) ->
  NoDup (dict_keys (enabled_map_next enabled_map line)).
Proof.
  intros ND; unfold enabled_map_next.
  destruct (split line) as [|u [|s rest]]; auto using dict_set_NoDup.
Qed.

Lemma enabled_map_fold_NoDup (lines : list str) :
  forall enabled_map,
    NoDup (dict_keys enabled_map) ->
    NoDup (dict_keys (fold_left enabled_map_next lines enabled_map)).
Proof.
  induction lines as [|line lines IH]; intros em ND; simpl; [exact ND|].
  apply IH, enabled_map_next_NoDup, ND.
Qed.

Lemma enabled_map_of_NoDup (code : Z) (out : str) :
  NoDup (dict_keys (enabled_map_of code out)).
Proof.
  unfold enabled_map_of; destruct (code =? 0)%Z.
  - apply enabled_map_fold_NoDup; constructor.
  - constructor.
Qed.

(** A line that does not assign to [u] leaves the state of [u] alone. *)
Lemma enabled_map_next_other (enabled_map : pydict str) (line u : str) :
  (2 <= length (split line) -> nth 0 (split line) [] <> u) ->
  dict_get u (enabled_map_next enabled_map line) = dict_get u enabled_map.
Proof.
  intros H; unfold enabled_map_next.
  destruct (split line) as [|u' [|s rest]]; try reflexivity.
  apply dict_get_set_other, H; simpl; lia.
Qed.

Lemma enabled_map_fold_other (lines : list str) (u : str) :
  (forall line, In line lines ->
     2 <= length (split line) -> nth 0 (split line) [] <> u) ->
  forall enabled_map,
    dict_get u (fold_left enabled_map_next lines enabled_map) =
    dict_get u enabled_map.
Proof.
  induction lines as [|line lines IH]; intros H em; simpl; [reflexivity|].
  rewrite IH by (intros l Hl; apply H; right; exact Hl).
  apply enabled_map_next_other, H; left; reflexivity.
Qed.

(** A key of the mapping is the first token of some line with two tokens. *)
Lemma enabled_map_fold_key (lines : list str) (u : str) :
  forall enabled_map,
    In u (dict_keys (fold_left enabled_map_next lines enabled_map)) ->
    In u (dict_keys enabled_map) \/
    exists line s rest, In line lines /\ split line = u :: s :: rest.
Proof.
  induction lines as [|line lines IH]; intros em H; simpl in *; [auto|].
  destruct (IH _ H) as [H1|(l & s & rest & Hl & E)].
  - unfold enabled_map_next in H1.
    destruct (split line) as [|u' [|s rest]] eqn:E; auto.
    rewrite dict_keys_set in H1.
    destruct (dict_contains u' em); auto.
    apply in_app_or in H1 as [H1|[<-|[]]]; auto.
    right; exists line, s, rest; auto.
  - right; exists l, s, rest; auto.
Qed.

(** ** The mapping of the live units *)

Lemma parse_unit_line_unit (enabled_map : pydict str) (line : str)
    (r : ServiceRecord) :
  parse_unit_line enabled_map line = Some r ->
  5 <= length (unit_line_parts line) /\
  svc_unit r = nth 0 (unit_line_parts line) [] /\
  svc_enabled r = dict_get_default (svc_unit r) (lit "?") enabled_map.
Proof.
  unfold parse_unit_line.
  destruct (length (unit_line_parts line) <? 5)%nat eqn:E; [discriminate|].
  apply Nat.ltb_ge in E. intros [= <-]; simpl; auto.
Qed.

Lemma unit_line_parts_incl (line t : str) :
  In t (unit_line_parts line) -> In t (split line).
Proof.
  unfold unit_line_parts.
  destruct (negb _ && _); [|auto].
  destruct (split line); simpl; auto.
Qed.

Lemma parse_unit_line_nonempty (enabled_map : pydict str) (line : str)
    (r : ServiceRecord) :
  parse_unit_line enabled_map line = Some r -> svc_unit r <> [].
Proof.
  intros H; apply parse_unit_line_unit in H as (L & -> & _).
  apply (split_nonempty line), unit_line_parts_incl, nth_In; lia.
Qed.

Lemma runtime_next_inv (enabled_map : pydict str)
    (runtime_services : pydict ServiceRecord) (line : str) :
  NoDup (dict_keys runtime_services) /\
  Forall (runtime_entry_ok enabled_map) runtime_services ->
  NoDup (dict_keys (runtime_next enabled_map runtime_services line)) /\
  Forall (runtime_entry_ok enabled_map)
    (runtime_next enabled_map runtime_services line).
Proof.
  intros [ND F]; unfold runtime_next.
  destruct (parse_unit_line enabled_map line) as [r|] eqn:P; [|auto].
  split; [apply dict_set_NoDup, ND|].
  apply Forall_forall; intros [k r'] H.
  apply dict_set_In in H as [[-> ->]|H].
  - pose proof (parse_unit_line_nonempty _ _ P).
    apply parse_unit_line_unit in P as (_ & _ & E).
    repeat split; auto.
  - rewrite Forall_forall in F; apply (F _ H).
Qed.

Lemma runtime_fold_inv (enabled_map : pydict str) (lines : list str) :
  forall runtime_services,
    NoDup (dict_keys runtime_services) /\
    Forall (runtime_entry_ok enabled_map) runtime_services ->
    NoDup (dict_keys (fold_left (runtime_next enabled_map) lines runtime_services)) /\
    Forall (runtime_entry_ok enabled_map)
      (fold_left (runtime_next enabled_map) lines runtime_services).
Proof.
  induction lines as [|line lines IH]; intros rs H; simpl; [exact H|].
  apply IH, runtime_next_inv, H.
Qed.

(** Keys are never removed, and a parsed line leaves its unit as a key. *)
Lemma runtime_next_keeps (enabled_map : pydict str)
    (runtime_services : pydict ServiceRecord) (line u : str) :
  dict_contains u runtime_services = true ->
  dict_contains u (runtime_next enabled_map runtime_services line) = true.
Proof.
  intros H; unfold runtime_next.
  destruct (parse_unit_line enabled_map line); [|exact H].
  rewrite dict_contains_set, H; apply orb_true_r.
Qed.

Lemma runtime_fold_keeps (enabled_map : pydict str) (lines : list str) (u : str) :
  forall runtime_services,
    dict_contains u runtime_services = true ->
    dict_contains u (fold_left (runtime_next enabled_map) lines runtime_services)
    = true.
Proof.
  induction lines as [|line lines IH]; intros rs H; simpl; [exact H|].
  apply IH, runtime_next_keeps, H.
Qed.

Lemma runtime_fold_named (enabled_map : pydict str) (lines : list str)
    (line u : str) :
  In line lines ->
  5 <= length (unit_line_parts line) ->
  nth 0 (unit_line_parts line) [] = u ->
  forall runtime_services,
    dict_contains u (fold_left (runtime_next enabled_map) lines runtime_services)
    = true.
Proof.
  intros Hin L U.
  induction lines as [|l lines IH]; intros rs; simpl; [destruct Hin|].
  destruct Hin as [->|Hin]; [|apply IH, Hin].
  apply runtime_fold_keeps.
  unfold runtime_next, parse_unit_line.
  apply Nat.ltb_ge in L; rewrite L; simpl.
  rewrite dict_contains_set, U, str_eqb_refl; reflexivity.
Qed.

(** A key of the mapping is the unit of some parsed line. *)
Lemma runtime_fold_key (enabled_map : pydict str) (lines : list str) (u : str) :
  forall runtime_services,
    In u (dict_keys (fold_left (runtime_next enabled_map) lines runtime_services)) ->
    In u (dict_keys runtime_services) \/
    exists line, In line lines /\ 5 <= length (unit_line_parts line) /\
                 nth 0 (unit_line_parts line) [] = u.
Proof.
  induction lines as [|line lines IH]; intros rs H; simpl in *; [auto|].
  destruct (IH _ H) as [H1|(l & Hl & E)].
  - unfold runtime_next in H1.
    destruct (parse_unit_line enabled_map line) as [r|] eqn:P; auto.
    rewrite dict_keys_set in H1.
    destruct (dict_contains (svc_unit r) rs); auto.
    apply in_app_or in H1 as [H1|[<-|[]]]; auto.
    apply parse_unit_line_unit in P as (L & U & _).
    right; exists line; auto.
  - right; exists l; tauto.
Qed.

Lemma enabled_map_next_keeps (enabled_map : pydict str) (line u : str) :
  dict_contains u enabled_map = true ->
  dict_contains u (enabled_map_next enabled_map line) = true.
Proof.
  intros H; unfold enabled_map_next.
  destruct (split line) as [|u' [|s rest]]; auto.
  rewrite dict_contains_set, H; apply orb_true_r.
Qed.

Lemma enabled_map_fold_keeps (lines : list str) (u : str) :
  forall enabled_map,
    dict_contains u enabled_map = true ->
    dict_contains u (fold_left enabled_map_next lines enabled_map) = true.
Proof.
  induction lines as [|line lines IH]; intros em H; simpl; [exact H|].
  apply IH, enabled_map_next_keeps, H.
Qed.

Lemma enabled_map_fold_named (lines : list str) (line u s : str)
    (rest : list str) :
  In line lines -> split line = u :: s :: rest ->
  forall enabled_map,
    dict_contains u (fold_left enabled_map_next lines enabled_map) = true.
Proof.
  intros Hin E.
  induction lines as [|l lines IH]; intros em; simpl; [destruct Hin|].
  destruct Hin as [->|Hin]; [|apply IH, Hin].
  apply enabled_map_fold_keeps.
  unfold enabled_map_next; rewrite E, dict_contains_set, str_eqb_refl.
  reflexivity.
Qed.

(** ** The merge *)

Lemma merge_services_merged (enabled_map : pydict str)
    (runtime_services : pydict ServiceRecord) :
  merge_services [] enabled_map runtime_services
  = merged enabled_map runtime_services.
Proof.
  unfold merge_services, merged, merged_tail, dict_items; simpl.
  generalize (dict_values runtime_services) as services.
  induction enabled_map as [|[u s] items IH]; intros services; simpl.
  - rewrite app_nil_r; reflexivity.
  - rewrite IH. destruct (dict_contains u runtime_services); simpl.
    + reflexivity.
    + rewrite <- app_assoc; reflexivity.
Qed.

Lemma get_services_list_returns
    (subprocess_run : list str -> outcome CompletedProcess)
    (code : Z) (out err out' err' : str) :
  run_command subprocess_run LIST_UNIT_FILES_CMD false
  = Returned (code, out, err) ->
  run_command subprocess_run LIST_UNITS_CMD false
  = Returned (0%Z, out', err') ->
  get_services_list subprocess_run =
  Returned (merged (enabled_map_of code out)
              (runtime_services_of (enabled_map_of code out) out')).
Proof.
  intros H1 H2; unfold get_services_list.
  rewrite H1; simpl. rewrite build_enabled_map_returns; simpl.
  rewrite H2; simpl. rewrite build_runtime_services_returns; simpl.
  rewrite merge_services_merged; reflexivity.
Qed.

Lemma run_command_returns
    (subprocess_run : list str -> outcome CompletedProcess)
    (command : list str) (require_root : bool) :
  exists code out err,
    run_command subprocess_run command require_root = Returned (code, out, err).
Proof.
  unfold run_command.
  destruct (subprocess_run _) as [proc|[ex|ex|ex|ex]]; eauto.
Qed.

Lemma live_failure_raises
    (subprocess_run : list str -> outcome CompletedProcess)
    (code : Z) (out err : str) :
  run_command subprocess_run LIST_UNITS_CMD false = Returned (code, out, err) ->
  code <> 0%Z ->
  exists e, get_services_list subprocess_run = Raised e.
Proof.
  intros H2 N.
  destruct (run_command_returns subprocess_run LIST_UNIT_FILES_CMD false)
    as (c & o & e & H1).
  unfold get_services_list. rewrite H1; simpl.
  rewrite build_enabled_map_returns; simpl. rewrite H2; simpl.
  apply Z.eqb_neq in N; rewrite N; eexists; reflexivity.
Qed.

Lemma runtime_services_of_inv (enabled_map : pydict str) (out : str) :
  NoDup (dict_keys (runtime_services_of enabled_map out)) /\
  Forall (runtime_entry_ok enabled_map) (runtime_services_of enabled_map out).
Proof. apply runtime_fold_inv; split; constructor. Qed.

Lemma merged_units (enabled_map : pydict str) (out : str) :
  map svc_unit (merged enabled_map (runtime_services_of enabled_map out)) =
  dict_keys (runtime_services_of enabled_map out) ++
  map fst (install_only (runtime_services_of enabled_map out) enabled_map).
Proof.
  destruct (runtime_services_of_inv enabled_map out) as [_ F].
  unfold merged, merged_tail, dict_values, dict_keys.
  rewrite map_app, !map_map; f_equal.
  apply map_ext_in; intros e He.
  rewrite Forall_forall in F; apply (F e He).
Qed.

(** Dropping items of a dict leaves its keys distinct. *)
Lemma dict_filter_keys_NoDup (V : Type) (keep : str * V -> bool)
    (d : pydict V) :
  NoDup (dict_keys d) -> NoDup (dict_keys (filter keep d)).
Proof.
  unfold dict_keys.
  induction d as [|[k v] d IH]; simpl; intros ND; [constructor|].
  apply NoDup_cons_iff in ND as [Hk ND].
  destruct (keep (k, v)); simpl; [|auto].
  constructor; [|auto].
  rewrite in_map_iff; intros ([k' v'] & E & H); simpl in E; subst k'.
  apply filter_In, proj1, (in_map fst) in H; contradiction.
Qed.

(** The unit is a key of the merged list. *)
Lemma merged_NoDup (code : Z) (out out' : str) :
  NoDup (map svc_unit
           (merged (enabled_map_of code out)
              (runtime_services_of (enabled_map_of code out) out'))).
Proof.
  rewrite merged_units.
  destruct (runtime_services_of_inv (enabled_map_of code out) out') as [ND _].
  apply NoDup_app; [exact ND | |].
  - apply dict_filter_keys_NoDup, enabled_map_of_NoDup.
  - intros u Hu H. apply in_map_iff in H as ([u' s] & <- & H).
    apply filter_In in H as [_ H]; simpl in *.
    apply dict_contains_keys in Hu; rewrite Hu in H; discriminate.
Qed.

Lemma records_of_absent (services : list ServiceRecord) (u : str) :
  ~ In u (map svc_unit services) -> records_of u services = [].
Proof.
  unfold records_of.
  induction services as [|x l IH]; simpl; intros H; [reflexivity|].
  str_cases (svc_unit x) u; [exfalso; auto | auto].
Qed.

(** In a list keyed by unit, the records of a unit it holds are that one
    record. *)
Lemma records_of_unique (services : list ServiceRecord) (r : ServiceRecord) :
  NoDup (map svc_unit services) -> In r services ->
  records_of (svc_unit r) services = [r].
Proof.
  induction services as [|x l IH]; simpl; intros ND H; [destruct H|].
  inversion ND as [|? ? Hx ND']; subst.
  unfold records_of in *; simpl.
  destruct H as [->|H].
  - rewrite str_eqb_refl; f_equal. apply records_of_absent, Hx.
  - str_cases (svc_unit x) (svc_unit r).
    + exfalso; apply Hx; rewrite E; apply in_map, H.
    + auto.
Qed.

(** ** The merged list *)

(** C1.  When the live-units query succeeds, [get_services_list] returns a
    list in which the unit field is a key (no two records share it); every
    unit named by a line of the live-units output has exactly one record
    there, and the enabled field of that record is the state the enablement
    mapping holds for the unit, or "?" when the mapping has none. *)
Theorem live_units_appear_once
    (subprocess_run : list str -> outcome CompletedProcess)
    (code : Z) (out err out' err' : str) :
  run_command subprocess_run LIST_UNIT_FILES_CMD false
  = Returned (code, out, err) ->
  run_command subprocess_run LIST_UNITS_CMD false
  = Returned (0%Z, out', err') ->
  exists enabled_map services,
    build_enabled_map code out = Returned enabled_map /\
    get_services_list subprocess_run = Returned services /\
    NoDup (map svc_unit services) /\
    forall line u,
      In line (splitlines out') ->
      5 <= length (unit_line_parts line) ->
      nth 0 (unit_line_parts line) [] = u ->
      exists r,
        records_of u services = [r] /\
        svc_unit r = u /\
        svc_enabled r =
        match dict_get u enabled_map with
        | Some state => state
        | None => lit "?"
        end.
Proof.
  intros H1 H2.
  exists (enabled_map_of code out).
  eexists; split; [apply build_enabled_map_returns|].
  split; [apply (get_services_list_returns _ H1 H2)|].
  pose proof (merged_NoDup code out out') as ND.
  split; [exact ND|].
  intros line u Hin L U.
  set (em := enabled_map_of code out) in *.
  destruct (runtime_services_of_inv em out') as [NDk F].
  pose proof (runtime_fold_named em _ _ Hin L U []) as C.
  fold (runtime_services_of em out') in C.
  unfold dict_contains in C.
  destruct (dict_get u (runtime_services_of em out')) as [r|] eqn:G;
    [clear C | discriminate].
  apply dict_get_In in G.
  rewrite Forall_forall in F; destruct (F _ G) as (Eu & Ee & _); simpl in *.
  exists r; repeat split; auto.
  rewrite <- Eu; apply records_of_unique; [exact ND|].
  unfold merged; apply in_or_app; left.
  apply (in_map snd) in G; exact G.
Qed.

Lemma live_units_appear_once_witness :
  exists enabled_map services,
    build_enabled_map 0 sample_unit_files = Returned enabled_map /\
    get_services_list sample_host = Returned services /\
    NoDup (map svc_unit services) /\
    forall line u,
      In line (splitlines sample_units) ->
      5 <= length (unit_line_parts line) ->
      nth 0 (unit_line_parts line) [] = u ->
      exists r,
        records_of u services = [r] /\
        svc_unit r = u /\
        svc_enabled r =
        match dict_get u enabled_map with
        | Some state => state
        | None => lit "?"
        end.
Proof.
  apply (@live_units_appear_once sample_host 0%Z sample_unit_files []
           sample_units []); vm_compute; reflexivity.
Defined.

(** C2.  A unit that a line of the enablement output names and no line of
    the live-units output names has exactly one record in the list
    [get_services_list] returns: the placeholder with load "n/a", active
    "inactive", sub "dead", the fixed description, and the state the
    enablement mapping holds for the unit. *)
Theorem install_only_unit_placeholder
    (subprocess_run : list str -> outcome CompletedProcess)
    (out err out' err' : str) (line u s : str) (rest : list str) :
  run_command subprocess_run LIST_UNIT_FILES_CMD false
  = Returned (0%Z, out, err) ->
  run_command subprocess_run LIST_UNITS_CMD false
  = Returned (0%Z, out', err') ->
  In line (splitlines out) ->
  split line = u :: s :: rest ->
  (forall line', In line' (splitlines out') ->
     5 <= length (unit_line_parts line') ->
     nth 0 (unit_line_parts line') [] <> u) ->
  exists enabled_map services state,
    build_enabled_map 0 out = Returned enabled_map /\
    get_services_list subprocess_run = Returned services /\
    dict_get u enabled_map = Some state /\
    records_of u services =
    [{| svc_unit := u;
        svc_load := lit "n/a";
        svc_active := lit "inactive";
        svc_sub := lit "dead";
        svc_description := lit "Not loaded (available to enable/start)";
        svc_enabled := state |}].
Proof.
  intros H1 H2 Hin E Hlive.
  pose proof (merged_NoDup 0 out out') as ND.
  pose proof (build_enabled_map_returns 0 out) as B.
  set (em := enabled_map_of 0 out) in *.
  pose proof (enabled_map_fold_named _ _ Hin E []) as C.
  change (dict_contains u em = true) in C.
  unfold dict_contains in C.
  destruct (dict_get u em) as [state|] eqn:G; [clear C | discriminate].
  exists em, (merged em (runtime_services_of em out')), state.
  split; [exact B|].
  split; [apply (get_services_list_returns _ H1 H2)|].
  split; [exact G|].
  apply (records_of_unique _ (not_loaded u state) ND).
  unfold merged, merged_tail; apply in_or_app; right.
  apply in_map_iff; exists (u, state); split; [reflexivity|].
  apply filter_In; split; [apply dict_get_In, G|]; simpl.
  destruct (dict_contains u (runtime_services_of em out')) eqn:C; [|reflexivity].
  exfalso. apply dict_contains_keys in C.
  apply runtime_fold_key in C as [[]|(l & Hl & L & U)].
  exact (Hlive l Hl L U).
Qed.

Lemma install_only_unit_placeholder_witness :
  exists enabled_map services state,
    build_enabled_map 0 sample_unit_files = Returned enabled_map /\
    get_services_list sample_host = Returned services /\
    dict_get (lit "foo.service") enabled_map = Some state /\
    records_of (lit "foo.service") services =
    [{| svc_unit := lit "foo.service";
        svc_load := lit "n/a";
        svc_active := lit "inactive";
        svc_sub := lit "dead";
        svc_description := lit "Not loaded (available to enable/start)";
        svc_enabled := state |}].
Proof.
  apply (@install_only_unit_placeholder sample_host sample_unit_files []
           sample_units [] (lit "foo.service disabled enabled")
           (lit "foo.service") (lit "disabled") [lit "enabled"]).
  - vm_compute; reflexivity.
  - vm_compute; reflexivity.
  - vm_compute; auto.
  - vm_compute; reflexivity.
  - intros line' Hin.
    vm_compute in Hin.
    destruct Hin as [<-|[<-|[<-|[]]]]; vm_compute; intros; discriminate.
Defined.

(** ** Failures of the two queries *)

(** C7.  A non-zero exit of the enablement listing is not fatal: the
    mapping is empty, the list holds the live units alone and each has
    enabled "?".  A non-zero exit of the live-units listing makes
    [get_services_list] raise an error of its own whose text ends with the
    captured stderr, character for character; no list is returned. *)
Theorem enablement_failure_degrades_live_failure_raises
    (subprocess_run : list str -> outcome CompletedProcess) :
  (forall code out err out' err',
     run_command subprocess_run LIST_UNIT_FILES_CMD false
     = Returned (code, out, err) ->
     code <> 0%Z ->
     run_command subprocess_run LIST_UNITS_CMD false
     = Returned (0%Z, out', err') ->
     build_enabled_map code out = Returned [] /\
     exists runtime_services,
       build_runtime_services [] out' = Returned runtime_services /\
       get_services_list subprocess_run
       = Returned (dict_values runtime_services) /\
       Forall (fun r => svc_enabled r = lit "?")
         (dict_values runtime_services)) /\
  (forall code' out' err',
     run_command subprocess_run LIST_UNITS_CMD false
     = Returned (code', out', err') ->
     code' <> 0%Z ->
     get_services_list subprocess_run
     = Raised (RuntimeError (lit "Failed to list services:" ++ err'))).
Proof.
  split.
  - intros code out err out' err' H1 Hc H2.
    assert (E : enabled_map_of code out = []).
    { unfold enabled_map_of. apply Z.eqb_neq in Hc; rewrite Hc; reflexivity. }
    split; [rewrite build_enabled_map_returns, E; reflexivity|].
    exists (runtime_services_of [] out').
    split; [apply build_runtime_services_returns|]. split.
    + rewrite (get_services_list_returns _ H1 H2), E.
      unfold merged, merged_tail; simpl. rewrite app_nil_r; reflexivity.
    + destruct (runtime_services_of_inv [] out') as [_ F].
      unfold dict_values; apply Forall_map.
      eapply Forall_impl; [|exact F].
      intros [k r] (_ & Ee & _); exact Ee.
  - intros code' out' err' H2 Hc.
    destruct (run_command_returns subprocess_run LIST_UNIT_FILES_CMD false)
      as (code & out & err & H1).
    unfold get_services_list. rewrite H1; simpl.
    rewrite build_enabled_map_returns; simpl. rewrite H2; simpl.
    apply Z.eqb_neq in Hc; rewrite Hc; reflexivity.
Qed.

Lemma enablement_failure_degrades_live_failure_raises_witness :
  (build_enabled_map 1 sample_unit_files = Returned [] /\
   exists runtime_services,
     build_runtime_services [] sample_units = Returned runtime_services /\
     get_services_list files_fail_host
     = Returned (dict_values runtime_services) /\
     Forall (fun r => svc_enabled r = lit "?") (dict_values runtime_services)) /\
  get_services_list units_fail_host
  = Raised (RuntimeError (lit "Failed to list services:" ++
                          lit "Failed to connect to bus")).
Proof.
  split.
  - apply (proj1 (enablement_failure_degrades_live_failure_raises
                    files_fail_host)
             1%Z sample_unit_files (lit "Failed to connect to bus")
             sample_units []);
      [vm_compute; reflexivity | discriminate | vm_compute; reflexivity].
  - apply (proj2 (enablement_failure_degrades_live_failure_raises
                    units_fail_host)
             1%Z sample_units (lit "Failed to connect to bus"));
      [vm_compute; reflexivity | discriminate].
Defined.

(** ** Lines of the live-units output *)

(** C9.  A line with fewer than five tokens once the optional bullet is
    dropped (a blank line has none) is skipped: the loop body returns the
    mapping as it was and raises nothing, and [get_services_list] returns
    the very list it returns when the line is not in the output at all. *)
Theorem short_line_skipped
    (subprocess_run subprocess_run' : list str -> outcome CompletedProcess)
    (out err out' err' : str) (pre post : list str) (line : str) :
  length (unit_line_parts line) < 5 ->
  run_command subprocess_run LIST_UNIT_FILES_CMD false
  = run_command subprocess_run' LIST_UNIT_FILES_CMD false ->
  run_command subprocess_run LIST_UNITS_CMD false = Returned (0%Z, out, err) ->
  run_command subprocess_run' LIST_UNITS_CMD false
  = Returned (0%Z, out', err') ->
  splitlines out = pre ++ line :: post ->
  splitlines out' = pre ++ post ->
  (forall enabled_map runtime_services,
     runtime_step enabled_map runtime_services line
     = Returned runtime_services) /\
  exists services,
    get_services_list subprocess_run = Returned services /\
    get_services_list subprocess_run' = Returned services.
Proof.
  intros L H1 H2 H2' E E'.
  assert (S : forall em rs, runtime_next em rs line = rs).
  { intros em rs; unfold runtime_next, parse_unit_line.
    apply Nat.ltb_lt in L; rewrite L; reflexivity. }
  split; [intros em rs; rewrite runtime_step_returns, S; reflexivity|].
  destruct (run_command_returns subprocess_run LIST_UNIT_FILES_CMD false)
    as (code & o & e & H).
  rewrite H in H1; symmetry in H1.
  rewrite (get_services_list_returns _ H H2).
  rewrite (get_services_list_returns _ H1 H2').
  eexists; split; [reflexivity|].
  unfold runtime_services_of.
  rewrite E, E', !fold_left_app; simpl; rewrite S; reflexivity.
Qed.

Lemma short_line_skipped_witness :
  (forall enabled_map runtime_services,
     runtime_step enabled_map runtime_services (lit "short line")
     = Returned runtime_services) /\
  exists services,
    get_services_list sample_host = Returned services /\
    get_services_list sample_host_clean = Returned services.
Proof.
  apply (@short_line_skipped sample_host sample_host_clean
           sample_units [] sample_units_clean []
           [lit "ssh.service loaded active running OpenBSD Secure Shell server";
            BULLET ++ lit " x.service loaded failed failed X"]
           [] (lit "short line"));
    try (vm_compute; reflexivity).
  vm_compute; lia.
Defined.

(** Putting the bullet and white space in front of a line puts the bullet
    token in front of its tokens. *)
Lemma split_bullet_prefix (c : char) (line : str) :
  isspace c = true -> split (BULLET ++ c :: line) = BULLET :: split line.
Proof. intros H; unfold split; simpl; rewrite H; reflexivity. Qed.

(** C8, as the code has it.  A line that is the bullet token followed by
    the five or more fields of a second line is stored as the record the
    second line is stored as, provided the first of those fields is not
    itself the bullet: the loop drops one leading bullet, not two. *)
Theorem bullet_line_parses_alike (enabled_map : pydict str)
    (runtime_services : pydict ServiceRecord) (line line' : str) :
  split line = BULLET :: split line' ->
  5 <= length (split line') ->
  nth 0 (split line') [] <> BULLET ->
  exists r,
    runtime_step enabled_map runtime_services line
    = Returned (dict_set (svc_unit r) r runtime_services) /\
    runtime_step enabled_map runtime_services line'
    = Returned (dict_set (svc_unit r) r runtime_services) /\
    parse_unit_line enabled_map line = Some r /\
    parse_unit_line enabled_map line' = Some r.
Proof.
  intros E L N.
  assert (P : unit_line_parts line = unit_line_parts line').
  { unfold unit_line_parts. rewrite E; simpl.
    apply str_eqb_neq in N; rewrite N, andb_false_r; reflexivity. }
  assert (Q : parse_unit_line enabled_map line
              = parse_unit_line enabled_map line').
  { unfold parse_unit_line; rewrite P; reflexivity. }
  assert (R : exists r, parse_unit_line enabled_map line' = Some r).
  { unfold parse_unit_line, unit_line_parts.
    apply str_eqb_neq in N; rewrite N, andb_false_r.
    apply Nat.ltb_ge in L; rewrite L. eexists; reflexivity. }
  destruct R as [r R]; exists r.
  rewrite !runtime_step_returns; unfold runtime_next.
  rewrite Q, R; auto.
Qed.

Lemma bullet_line_parses_alike_witness :
  exists r,
    runtime_step [] [] bullet_line = Returned (dict_set (svc_unit r) r []) /\
    runtime_step [] [] plain_line = Returned (dict_set (svc_unit r) r []) /\
    parse_unit_line [] bullet_line = Some r /\
    parse_unit_line [] plain_line = Some r.
Proof.
  apply (@bullet_line_parses_alike [] [] bullet_line plain_line).
  - vm_compute; reflexivity.
  - vm_compute; lia.
  - vm_compute; discriminate.
Defined.

(** C8 as stated fails on a line whose first field is the bullet: with the
    leading bullet the unit stored is the bullet and the description "d e",
    without it the unit is "a" and the description "e". *)
Lemma bullet_line_counterexample :
  split two_bullets_line = BULLET :: split one_bullet_line /\
  5 <= length (split one_bullet_line) /\
  runtime_step [] [] two_bullets_line =
  Returned
    [(BULLET,
      {| svc_unit := BULLET; svc_load := lit "a"; svc_active := lit "b";
         svc_sub := lit "c"; svc_description := lit "d e";
         svc_enabled := lit "?" |})] /\
  runtime_step [] [] one_bullet_line =
  Returned
    [(lit "a",
      {| svc_unit := lit "a"; svc_load := lit "b"; svc_active := lit "c";
         svc_sub := lit "d"; svc_description := lit "e";
         svc_enabled := lit "?" |})] /\
  runtime_step [] [] two_bullets_line <> runtime_step [] [] one_bullet_line.
Proof.
  split; [vm_compute; reflexivity|].
  split; [vm_compute; lia|].
  split; [vm_compute; reflexivity|].
  split; [vm_compute; reflexivity|].
  vm_compute; discriminate.
Qed.

(** ** Lines of the enablement output *)

(** C10.  Building the enablement mapping returns for every output text.
    The loop reads the first two tokens of a line and nothing else: a line
    with fewer than two tokens (a blank line has none) hands the mapping
    back as it was; a line with two or more assigns the second token to the
    first, whatever follows; and the state the finished mapping holds for a
    unit is that of the last line naming it. *)
Theorem enablement_mapping_first_two_tokens (out : str) :
  (forall code, exists enabled_map,
     build_enabled_map code out = Returned enabled_map) /\
  (forall enabled_map line,
     length (split line) < 2 ->
     enabled_map_step enabled_map line = Returned enabled_map) /\
  (forall enabled_map line unit_file state rest,
     split line = unit_file :: state :: rest ->
     enabled_map_step enabled_map line
     = Returned (dict_set unit_file state enabled_map)) /\
  (forall pre line post unit_file state rest,
     splitlines out = pre ++ line :: post ->
     split line = unit_file :: state :: rest ->
     (forall line', In line' post ->
        2 <= length (split line') ->
        nth 0 (split line') [] <> unit_file) ->
     exists enabled_map,
       build_enabled_map 0 out = Returned enabled_map /\
       dict_get unit_file enabled_map = Some state).
Proof.
  split; [|split; [|split]].
  - intros code; eexists; apply build_enabled_map_returns.
  - intros em line L; rewrite enabled_map_step_returns.
    unfold enabled_map_next.
    destruct (split line) as [|u [|s rest]]; simpl in L; [auto | auto | lia].
  - intros em line u s rest E; rewrite enabled_map_step_returns.
    unfold enabled_map_next; rewrite E; reflexivity.
  - intros pre line post u s rest E T Hpost.
    eexists; split; [apply build_enabled_map_returns|].
    unfold enabled_map_of; simpl. rewrite E, fold_left_app; simpl.
    rewrite (enabled_map_fold_other post Hpost).
    unfold enabled_map_next; rewrite T. apply dict_get_set_same.
Qed.

Lemma enablement_mapping_first_two_tokens_witness :
  enabled_map_step [] (lit "only-one-token") = Returned [] /\
  enabled_map_step [] (lit "ssh.service enabled enabled")
  = Returned (dict_set (lit "ssh.service") (lit "enabled") []) /\
  exists enabled_map,
    build_enabled_map 0 sample_unit_files = Returned enabled_map /\
    dict_get (lit "foo.service") enabled_map = Some (lit "masked").
Proof.
  destruct (enablement_mapping_first_two_tokens sample_unit_files)
    as (_ & Short & Two & Last).
  split; [apply Short; vm_compute; lia|].
  split; [apply (Two _ _ _ _ [lit "enabled"]); vm_compute; reflexivity|].
  apply (Last [lit "ssh.service enabled enabled";
               lit "foo.service disabled enabled"]
              (lit "foo.service masked") []
              (lit "foo.service") (lit "masked") []);
    [vm_compute; reflexivity | vm_compute; reflexivity | intros line' []].
Defined.

(** Every record of the returned list has a unit that is not empty, so a
    selected row of the table always counts as a selection. *)
Lemma get_services_list_units_nonempty
    (subprocess_run : list str -> outcome CompletedProcess)
    (services : list ServiceRecord) :
  get_services_list subprocess_run = Returned services ->
  Forall (fun r => svc_unit r <> []) services.
Proof.
  destruct (run_command_returns subprocess_run LIST_UNIT_FILES_CMD false)
    as (code & out & err & H1).
  destruct (run_command_returns subprocess_run LIST_UNITS_CMD false)
    as (code' & out' & err' & H2).
  destruct (Z.eq_dec code' 0) as [->|N].
  - rewrite (get_services_list_returns _ H1 H2); intros [= <-].
    set (em := enabled_map_of code out).
    destruct (runtime_services_of_inv em out') as [_ F].
    unfold merged, merged_tail, dict_values.
    apply Forall_app; split; apply Forall_map.
    + eapply Forall_impl; [|exact F].
      intros [k r] (Eu & _ & Ek); simpl in *; congruence.
    + apply Forall_forall; intros [u s] H; simpl.
      apply filter_In in H as [H _].
      apply (in_map fst) in H; simpl in H.
      unfold em, enabled_map_of in H.
      destruct (code =? 0)%Z; [|destruct H].
      apply enabled_map_fold_key in H as [[]|(l & s' & rest & _ & E)].
      apply (split_nonempty l); rewrite E; left; reflexivity.
  - destruct (live_failure_raises subprocess_run H2 N) as [e E].
    rewrite E; discriminate.
Qed.

(** The pair of outputs of the specification's end-to-end example. *)
Example end_to_end_ssh :
  get_services_list
    (host_of (completed 0 (lit "ssh.service enabled enabled") [])
       (completed 0
          (lit "ssh.service loaded active running OpenBSD Secure Shell server")
          []))
  = Returned
      [{| svc_unit := lit "ssh.service"; svc_load := lit "loaded";
          svc_active := lit "active"; svc_sub := lit "running";
          svc_description := lit "OpenBSD Secure Shell server";
          svc_enabled := lit "enabled" |}] /\
  service_state_color (lit "active") (lit "enabled") = QColor_of (lit "green").
Proof. split; vm_compute; reflexivity. Qed.

(** ** The command runner *)

(** C5.  With the elevation flag set, the argument vector handed to the
    host is "pkexec", then "/usr/bin/systemctl", then the arguments of the
    command as given (all but its executable); without the flag it is the
    command as given.  Running a command elevated is running that vector
    unelevated: what is asked of the service manager is the same. *)
Theorem elevated_dispatch
    (subprocess_run : list str -> outcome CompletedProcess)
    (command : list str) :
  full_cmd command true
  = lit "pkexec" :: lit "/usr/bin/systemctl" :: tl command /\
  (forall executable arguments,
     command = executable :: arguments ->
     full_cmd command true
     = lit "pkexec" :: lit "/usr/bin/systemctl" :: arguments) /\
  full_cmd command false = command /\
  run_command subprocess_run command true
  = run_command subprocess_run
      (lit "pkexec" :: lit "/usr/bin/systemctl" :: tl command) false.
Proof.
  assert (E : full_cmd command true
              = lit "pkexec" :: lit "/usr/bin/systemctl" :: tl command).
  { destruct command; reflexivity. }
  split; [exact E|].
  split; [intros exe args ->; reflexivity|].
  split; [reflexivity|].
  unfold run_command; rewrite E; reflexivity.
Qed.

Lemma elevated_dispatch_witness :
  run_command echo_host [lit "systemctl"; lit "restart"; lit "ssh.service"] true
  = Returned (0%Z, lit "pkexec /usr/bin/systemctl restart ssh.service", []).
Proof.
  destruct (elevated_dispatch echo_host
              [lit "systemctl"; lit "restart"; lit "ssh.service"])
    as (_ & _ & _ & E).
  rewrite E; vm_compute; reflexivity.
Defined.

(** C6.  [run_command] returns on every host, for every command and flag:
    when the host cannot find the executable the result is exit code 1,
    empty standard output and "Command not found: " with the host's
    message; any other exception of the call gives exit code 1, empty
    standard output and "Unexpected error: " with its message; a completed
    process gives its exit code, standard output and standard error. *)
Theorem run_command_never_raises
    (subprocess_run : list str -> outcome CompletedProcess)
    (command : list str) (require_root : bool) :
  (exists code out err,
     run_command subprocess_run command require_root
     = Returned (code, out, err)) /\
  (forall ex,
     subprocess_run (full_cmd command require_root)
     = Raised (FileNotFoundError ex) ->
     run_command subprocess_run command require_root
     = Returned (1%Z, [], lit "Command not found: " ++ ex)) /\
  (forall e,
     subprocess_run (full_cmd command require_root) = Raised e ->
     (forall ex, e <> FileNotFoundError ex) ->
     run_command subprocess_run command require_root
     = Returned (1%Z, [], lit "Unexpected error: " ++ exc_str e)) /\
  (forall proc,
     subprocess_run (full_cmd command require_root) = Returned proc ->
     run_command subprocess_run command require_root
     = Returned (returncode proc, stdout proc, stderr proc)).
Proof.
  split; [apply run_command_returns|].
  unfold run_command.
  split; [intros ex ->; reflexivity|].
  split; [|intros proc ->; reflexivity].
  intros e -> N. destruct e as [ex|ex|ex|ex]; try reflexivity.
  destruct (N ex); reflexivity.
Qed.

Lemma run_command_never_raises_witness :
  run_command bare_host [lit "systemctl"; lit "start"; lit "ssh.service"] true
  = Returned (1%Z, [],
              lit "Command not found: [Errno 2] No such file or directory: pkexec") /\
  run_command locked_host [lit "systemctl"; lit "status"] false
  = Returned (1%Z, [],
              lit "Unexpected error: [Errno 13] Permission denied: systemctl") /\
  run_command echo_host [lit "systemctl"; lit "status"] false
  = Returned (0%Z, lit "systemctl status", []).
Proof.
  split; [|split].
  - destruct (run_command_never_raises bare_host
                [lit "systemctl"; lit "start"; lit "ssh.service"] true)
      as (_ & NotFound & _).
    rewrite (NotFound _ eq_refl); vm_compute; reflexivity.
  - destruct (run_command_never_raises locked_host
                [lit "systemctl"; lit "status"] false)
      as (_ & _ & Other & _).
    rewrite (Other _ eq_refl); [vm_compute; reflexivity | discriminate].
  - destruct (run_command_never_raises echo_host
                [lit "systemctl"; lit "status"] false)
      as (_ & _ & _ & Done).
    rewrite (Done _ eq_refl); vm_compute; reflexivity.
Defined.

(** ** The status colour *)

(** C3.  The colour depends on the two states alone: black when enabled is
    "disabled" or "masked", whatever the activity; else green when active
    is "active"; else red.  The four pairs of the specification follow. *)
Theorem service_state_color_table (active_state enabled_state : str) :
  (enabled_state = lit "disabled" \/ enabled_state = lit "masked" ->
   service_state_color active_state enabled_state = QColor_of (lit "black")) /\
  (enabled_state <> lit "disabled" -> enabled_state <> lit "masked" ->
   active_state = lit "active" ->
   service_state_color active_state enabled_state = QColor_of (lit "green")) /\
  (enabled_state <> lit "disabled" -> enabled_state <> lit "masked" ->
   active_state <> lit "active" ->
   service_state_color active_state enabled_state = QColor_of (lit "red")) /\
  service_state_color (lit "active") (lit "enabled") = QColor_of (lit "green") /\
  service_state_color (lit "inactive") (lit "disabled") = QColor_of (lit "black") /\
  service_state_color (lit "failed") (lit "masked") = QColor_of (lit "black") /\
  service_state_color (lit "failed") (lit "static") = QColor_of (lit "red").
Proof.
  unfold service_state_color.
  split; [|split; [|split]].
  - intros [->| ->]; vm_compute; reflexivity.
  - intros D M ->.
    apply str_eqb_neq in D, M; rewrite D, M; reflexivity.
  - intros D M A.
    apply str_eqb_neq in D, M, A; rewrite D, M, A; reflexivity.
  - repeat split; vm_compute; reflexivity.
Qed.

Lemma service_state_color_table_witness :
  service_state_color (lit "active") (lit "disabled") = QColor_of (lit "black") /\
  service_state_color (lit "active") (lit "?") = QColor_of (lit "green") /\
  service_state_color [] [] = QColor_of (lit "red").
Proof.
  split; [|split].
  - apply (proj1 (service_state_color_table (lit "active") (lit "disabled"))).
    left; reflexivity.
  - apply (proj1 (proj2 (service_state_color_table (lit "active") (lit "?"))));
      [vm_compute; discriminate | vm_compute; discriminate | reflexivity].
  - apply (proj1 (proj2 (proj2 (service_state_color_table [] []))));
      vm_compute; discriminate.
Defined.

(** ** The buttons *)

Lemma populate_model_rows (services : list ServiceRecord)
    (w : ServiceManagerWindow) :
  model (populate_model services w) = map row_items services.
Proof.
  simpl.
  enough (H : forall rows,
             fold_left (fun rows svc => rows ++ [row_items svc]) services rows
             = rows ++ map row_items services) by apply (H []).
  induction services as [|svc l IH]; intros rows; simpl.
  - rewrite app_nil_r; reflexivity.
  - rewrite IH, <- app_assoc; reflexivity.
Qed.

(** The selected row of a populated table gives back the fields of the
    service it shows. *)
Lemma selected_row_fields (w : ServiceManagerWindow)
    (services : list ServiceRecord) (row : nat) (others : list nat)
    (svc : ServiceRecord) :
  model w = model (populate_model services w) ->
  selection_model w = Some (row :: others) ->
  nth_error services row = Some svc ->
  svc_unit svc <> [] ->
  get_selected_unit w = svc_unit svc /\
  get_selected_row_states w = (svc_active svc, svc_enabled svc).
Proof.
  intros M Sel Hrow U.
  rewrite populate_model_rows in M.
  assert (D : forall c, model_data w row c = nth_error (row_items svc) c).
  { intros c; unfold model_data.
    rewrite M, nth_error_map, Hrow; reflexivity. }
  unfold get_selected_unit, get_selected_row_states.
  rewrite Sel, !D; simpl.
  destruct (svc_unit svc); [contradiction | auto].
Qed.

Lemma no_selection_unit (w : ServiceManagerWindow) :
  selection_model w = None \/ selection_model w = Some [] ->
  get_selected_unit w = [].
Proof. unfold get_selected_unit; intros [-> | ->]; reflexivity. Qed.

Lemma update_buttons_unselected (w : ServiceManagerWindow) (btn : Button) :
  get_selected_unit w = [] ->
  isEnabled (update_buttons_enabled_state w) btn = false.
Proof.
  intros U; unfold update_buttons_enabled_state; rewrite U.
  destruct btn; reflexivity.
Qed.

(** The flag each button ends with when a unit is selected. *)
Lemma update_buttons_selected (w : ServiceManagerWindow)
    (active_state enabled_state : str) (btn : Button) :
  get_selected_unit w <> [] ->
  get_selected_row_states w = (active_state, enabled_state) ->
  isEnabled (update_buttons_enabled_state w) btn =
  match btn with
  | start_button => negb (str_eqb active_state (lit "active"))
  | stop_button | restart_button => str_eqb active_state (lit "active")
  | reload_button | status_button => true
  | enable_button =>
      if str_eqb enabled_state (lit "enabled") then false
      else if str_eqb enabled_state (lit "disabled") then true
      else if str_eqb enabled_state (lit "masked") then false else true
  | disable_button =>
      if str_eqb enabled_state (lit "enabled") then true
      else if str_eqb enabled_state (lit "disabled") then false
      else if str_eqb enabled_state (lit "masked") then false else true
  | mask_button =>
      if str_eqb enabled_state (lit "enabled") then true
      else if str_eqb enabled_state (lit "disabled") then true
      else if str_eqb enabled_state (lit "masked") then false else true
  | unmask_button =>
      if str_eqb enabled_state (lit "enabled") then false
      else if str_eqb enabled_state (lit "disabled") then false
      else true
  end.
Proof.
  intros U S; unfold update_buttons_enabled_state; rewrite S.
  destruct (get_selected_unit w); [contradiction|].
  cbn [is_empty negb fst snd].
  destruct (str_eqb active_state (lit "active"));
    destruct (str_eqb enabled_state (lit "enabled"));
    destruct (str_eqb enabled_state (lit "disabled"));
    destruct (str_eqb enabled_state (lit "masked"));
    destruct btn; reflexivity.
Qed.

(** C4.  With no selection every button is off.  With a row selected in a
    table populated from a list of services, for every active and enabled
    string of the selected service: Start is on exactly when active is not
    "active", Stop and Restart exactly when it is, Reload is on, and Enable,
    Disable, Mask, Unmask are (off, on, on, off) for "enabled",
    (on, off, on, off) for "disabled", (off, off, off, on) for "masked" and
    (on, on, on, on) for any other value. *)
Theorem button_availability (w : ServiceManagerWindow) :
  (selection_model w = None \/ selection_model w = Some [] ->
   forall btn, isEnabled (update_buttons_enabled_state w) btn = false) /\
  (forall services row others svc,
     model w = model (populate_model services w) ->
     selection_model w = Some (row :: others) ->
     nth_error services row = Some svc ->
     svc_unit svc <> [] ->
     (isEnabled (update_buttons_enabled_state w) start_button = true
      <-> svc_active svc <> lit "active") /\
     (isEnabled (update_buttons_enabled_state w) stop_button = true
      <-> svc_active svc = lit "active") /\
     (isEnabled (update_buttons_enabled_state w) restart_button = true
      <-> svc_active svc = lit "active") /\
     isEnabled (update_buttons_enabled_state w) reload_button = true /\
     (svc_enabled svc = lit "enabled" ->
      map (isEnabled (update_buttons_enabled_state w))
        [enable_button; disable_button; mask_button; unmask_button]
      = [false; true; true; false]) /\
     (svc_enabled svc = lit "disabled" ->
      map (isEnabled (update_buttons_enabled_state w))
        [enable_button; disable_button; mask_button; unmask_button]
      = [true; false; true; false]) /\
     (svc_enabled svc = lit "masked" ->
      map (isEnabled (update_buttons_enabled_state w))
        [enable_button; disable_button; mask_button; unmask_button]
      = [false; false; false; true]) /\
     (svc_enabled svc <> lit "enabled" ->
      svc_enabled svc <> lit "disabled" ->
      svc_enabled svc <> lit "masked" ->
      map (isEnabled (update_buttons_enabled_state w))
        [enable_button; disable_button; mask_button; unmask_button]
      = [true; true; true; true])).
Proof.
  split.
  - intros H btn; apply update_buttons_unselected, no_selection_unit, H.
  - intros services row others svc M Sel Hrow U.
    destruct (selected_row_fields w services M Sel Hrow U) as [Eu Es].
    assert (Hu : get_selected_unit w <> []) by (rewrite Eu; exact U).
    pose proof (fun btn => update_buttons_selected w btn Hu Es) as B.
    cbn [map]; rewrite !B.
    split; [|split; [|split; [|split; [reflexivity|]]]].
    + rewrite negb_true_iff; apply str_eqb_neq.
    + apply str_eqb_eq.
    + apply str_eqb_eq.
    + split; [|split; [|split]].
      * intros ->; reflexivity.
      * intros ->; reflexivity.
      * intros ->; reflexivity.
      * intros E D K; apply str_eqb_neq in E, D, K; rewrite E, D, K.
        reflexivity.
Qed.

Lemma button_availability_witness :
  (isEnabled (update_buttons_enabled_state sample_window) start_button = true
   <-> lit "failed" <> lit "active") /\
  (isEnabled (update_buttons_enabled_state sample_window) stop_button = true
   <-> lit "failed" = lit "active") /\
  (isEnabled (update_buttons_enabled_state sample_window) restart_button = true
   <-> lit "failed" = lit "active") /\
  isEnabled (update_buttons_enabled_state sample_window) reload_button = true /\
  map (isEnabled (update_buttons_enabled_state sample_window))
    [enable_button; disable_button; mask_button; unmask_button]
  = [true; true; true; true].
Proof.
  destruct (proj2 (button_availability sample_window)
              sample_services 1 []
              {| svc_unit := lit "x.service"; svc_load := lit "loaded";
                 svc_active := lit "failed"; svc_sub := lit "failed";
                 svc_description := lit "X"; svc_enabled := lit "?" |})
    as (Start & Stop & Restart & Reload & _ & _ & _ & Other).
  - rewrite populate_model_rows; reflexivity.
  - reflexivity.
  - vm_compute; reflexivity.
  - vm_compute; discriminate.
  - split; [exact Start|]. split; [exact Stop|]. split; [exact Restart|].
    split; [exact Reload|].
    apply Other; vm_compute; discriminate.
Defined.

(** ** More on tokens *)

Lemma split_from_tokens (s : str) :
  forall cur,
    forallb (fun c => negb (isspace c)) cur = true ->
    Forall (fun t => is_token t = true) (split_from cur s).
Proof.
  assert (R : forall cur : str,
             forallb (fun c => negb (isspace c)) cur = true ->
             is_empty cur = false -> is_token (rev cur) = true).
  { intros cur H E; unfold is_token.
    rewrite forallb_forall in *. apply andb_true_iff; split.
    - destruct cur as [|c cur]; [discriminate|]; simpl.
      destruct (rev cur); reflexivity.
    - apply forallb_forall; intros c Hc; apply H, in_rev, Hc. }
  induction s as [|c s IH]; intros cur H; simpl.
  - destruct (is_empty cur) eqn:E; constructor; auto.
  - destruct (isspace c) eqn:Hc.
    + destruct (is_empty cur) eqn:E; [apply IH; reflexivity|].
      constructor; [apply R; assumption | apply IH; reflexivity].
    + apply IH; simpl; rewrite Hc, H; reflexivity.
Qed.

Lemma split_tokens (s : str) : Forall (fun t => is_token t = true) (split s).
Proof. apply split_from_tokens; reflexivity. Qed.

(** Reading a token moves it, reversed, onto the token being read. *)
Lemma split_from_nonspace (t : str) :
  forallb (fun c => negb (isspace c)) t = true ->
  forall cur rest, split_from cur (t ++ rest) = split_from (rev t ++ cur) rest.
Proof.
  induction t as [|c t IH]; intros H cur rest; [reflexivity|].
  simpl in H; apply andb_true_iff in H as [Hc Ht].
  apply negb_true_iff in Hc.
  simpl; rewrite Hc, (IH Ht), <- app_assoc; reflexivity.
Qed.

(** Joining tokens with one space and splitting gives the tokens back. *)
Lemma split_join_tokens (ts : list str) :
  Forall (fun t => is_token t = true) ts ->
  split (join (lit " ") ts) = ts.
Proof.
  unfold split.
  induction ts as [|t ts IH]; intros F; [reflexivity|].
  inversion F as [|? ? Ht Fs]; subst.
  unfold is_token in Ht; apply andb_true_iff in Ht as [Ne Ns].
  assert (E : is_empty (rev t) = false).
  { destruct t as [|c t]; [discriminate|]; simpl; destruct (rev t); reflexivity. }
  destruct ts as [|t' ts].
  - simpl. rewrite <- (app_nil_r t) at 1.
    rewrite (split_from_nonspace t Ns), app_nil_r; simpl.
    rewrite E, rev_involutive; reflexivity.
  - change (join (lit " ") (t :: t' :: ts))
      with (t ++ lit " " ++ join (lit " ") (t' :: ts)).
    rewrite (split_from_nonspace t Ns), app_nil_r.
    change (lit " " ++ join (lit " ") (t' :: ts))
      with (32%N :: join (lit " ") (t' :: ts)).
    cbn [split_from]. change (isspace 32%N) with true; cbv iota.
    rewrite E, rev_involutive, (IH Fs); reflexivity.
Qed.

Lemma is_token_split (t : str) : is_token t = true -> split t = [t].
Proof.
  intros H. apply (@split_join_tokens [t]); constructor; [exact H|constructor].
Qed.

Lemma unit_line_parts_tokens (line : str) :
  Forall (fun t => is_token t = true) (unit_line_parts line).
Proof.
  apply Forall_forall; intros t H.
  apply unit_line_parts_incl in H.
  pose proof (split_tokens line) as F; rewrite Forall_forall in F; auto.
Qed.

(** X1.  The record stored for a line has a unit, load, active and sub
    state that are single tokens, and a description that splits into the
    tokens of the line from the fifth on.  Written back with single spaces
    it parses into itself, unless its unit is the bullet. *)
Theorem parse_render_round_trip (enabled_map : pydict str)
    (runtime_services : pydict ServiceRecord) (line : str)
    (r : ServiceRecord) :
  parse_unit_line enabled_map line = Some r ->
  (is_token (svc_unit r) = true /\ is_token (svc_load r) = true /\
   is_token (svc_active r) = true /\ is_token (svc_sub r) = true) /\
  split (svc_description r) = skipn 4 (unit_line_parts line) /\
  svc_description r <> [] /\
  (svc_unit r <> BULLET ->
   parse_unit_line enabled_map (render r) = Some r /\
   runtime_step enabled_map runtime_services (render r)
   = runtime_step enabled_map runtime_services line).
Proof.
  intros P.
  pose proof (unit_line_parts_tokens line) as F.
  destruct (unit_line_parts line) as [|a [|b [|c [|d [|e rest]]]]] eqn:E;
    try (unfold parse_unit_line in P; rewrite E in P; discriminate).
  assert (Hr : r = {| svc_unit := a; svc_load := b; svc_active := c;
                      svc_sub := d;
                      svc_description := join (lit " ") (e :: rest);
                      svc_enabled :=
                        dict_get_default a (lit "?") enabled_map |}).
  { assert (H : parse_unit_line enabled_map line
                = Some {| svc_unit := a; svc_load := b; svc_active := c;
                          svc_sub := d;
                          svc_description := join (lit " ") (e :: rest);
                          svc_enabled :=
                            dict_get_default a (lit "?") enabled_map |})
      by (unfold parse_unit_line; rewrite E; reflexivity).
    congruence. }
  subst r; cbn [svc_unit svc_load svc_active svc_sub svc_description].
  inversion F as [|? ? Ta F1]; subst.
  inversion F1 as [|? ? Tb F2]; subst.
  inversion F2 as [|? ? Tc F3]; subst.
  inversion F3 as [|? ? Td F4]; subst.
  split; [auto|].
  cbn [skipn].
  split; [apply split_join_tokens, F4|].
  split.
  { intros H. pose proof (split_join_tokens F4) as S.
    rewrite H in S; discriminate. }
  intros N.
  assert (R : unit_line_parts
                (render
                   {| svc_unit := a; svc_load := b; svc_active := c;
                      svc_sub := d;
                      svc_description := join (lit " ") (e :: rest);
                      svc_enabled := dict_get_default a (lit "?") enabled_map |})
              = a :: b :: c :: d :: e :: rest).
  { unfold unit_line_parts.
    change (render _) with (join (lit " ") (a :: b :: c :: d :: e :: rest)).
    rewrite (split_join_tokens F); cbn [is_empty negb nth andb].
    apply str_eqb_neq in N; rewrite N; reflexivity. }
  assert (P' : parse_unit_line enabled_map
                 (render
                    {| svc_unit := a; svc_load := b; svc_active := c;
                       svc_sub := d;
                       svc_description := join (lit " ") (e :: rest);
                       svc_enabled := dict_get_default a (lit "?") enabled_map |})
               = parse_unit_line enabled_map line).
  { unfold parse_unit_line; rewrite R, E; reflexivity. }
  split; [rewrite P'; exact P|].
  rewrite !runtime_step_returns; unfold runtime_next; rewrite P'; reflexivity.
Qed.

Lemma parse_render_round_trip_witness :
  split (lit "OpenBSD Secure Shell server")
  = [lit "OpenBSD"; lit "Secure"; lit "Shell"; lit "server"] /\
  runtime_step [] []
    (lit "ssh.service loaded active running OpenBSD Secure Shell server")
  = runtime_step [] []
      (lit "  ssh.service  loaded active   running OpenBSD  Secure Shell server ").
Proof.
  destruct (@parse_render_round_trip [] []
              (lit "  ssh.service  loaded active   running OpenBSD  Secure Shell server ")
              {| svc_unit := lit "ssh.service"; svc_load := lit "loaded";
                 svc_active := lit "active"; svc_sub := lit "running";
                 svc_description := lit "OpenBSD Secure Shell server";
                 svc_enabled := lit "?" |})
    as (_ & D & _ & R).
  - vm_compute; reflexivity.
  - split; [exact D|].
    apply R; vm_compute; discriminate.
Defined.

(** X2.  White space before and after a line changes nothing: both loop
    bodies do with the padded line what they do with the line. *)
Theorem line_padding_ignored (enabled_map : pydict str)
    (runtime_services : pydict ServiceRecord) (before after line : str) :
  forallb isspace before = true ->
  forallb isspace after = true ->
  runtime_step enabled_map runtime_services (before ++ line ++ after)
  = runtime_step enabled_map runtime_services line /\
  enabled_map_step enabled_map (before ++ line ++ after)
  = enabled_map_step enabled_map line.
Proof.
  intros B A.
  assert (E : split (before ++ line ++ after) = split line).
  { rewrite (split_spaces_app _ _ B). apply split_from_app_spaces, A. }
  rewrite !runtime_step_returns, !enabled_map_step_returns.
  unfold runtime_next, enabled_map_next, parse_unit_line, unit_line_parts.
  rewrite E; auto.
Qed.

Lemma line_padding_ignored_witness :
  runtime_step [] [] (lit "  " ++ plain_line ++ lit "   ")
  = runtime_step [] [] plain_line /\
  enabled_map_step [] (lit "  " ++ plain_line ++ lit "   ")
  = enabled_map_step [] plain_line.
Proof.
  apply (@line_padding_ignored [] [] (lit "  ") (lit "   ") plain_line);
    reflexivity.
Defined.

(** ** The order of the merged list *)

Lemma mem_In (x : str) (l : list str) : mem x l = true <-> In x l.
Proof.
  unfold mem; rewrite existsb_exists; split.
  - intros (y & Hy & E); apply str_eqb_eq in E; subst; exact Hy.
  - intros H; exists x; split; [exact H | apply str_eqb_refl].
Qed.

Lemma bool_eq_iff (a b : bool) : (a = true <-> b = true) -> a = b.
Proof.
  destruct a, b; intros [H1 H2]; try reflexivity;
    [symmetry; apply H1; reflexivity | apply H2; reflexivity].
Qed.

Lemma dict_contains_mem (V : Type) (d : pydict V) (k : str) :
  dict_contains k d = mem k (dict_keys d).
Proof.
  apply bool_eq_iff; rewrite dict_contains_keys, mem_In; reflexivity.
Qed.

Lemma dict_keys_set_distinct (V : Type) (d : pydict V) (k : str) (v : V) :
  dict_keys (dict_set k v d) = add_distinct (dict_keys d) k.
Proof. rewrite dict_keys_set, dict_contains_mem; reflexivity. Qed.

Lemma mem_add_distinct (l : list str) (acc : list str) (x : str) :
  mem x (fold_left add_distinct l acc) = mem x acc || mem x l.
Proof.
  revert acc; induction l as [|y l IH]; intros acc; simpl.
  - rewrite orb_false_r; reflexivity.
  - rewrite IH. unfold add_distinct.
    destruct (mem y acc) eqn:E.
    + str_cases x y; [subst; rewrite E; reflexivity | reflexivity].
    + unfold mem at 1; rewrite existsb_app; simpl.
      rewrite orb_false_r, <- orb_assoc; reflexivity.
Qed.

Lemma runtime_fold_keys (enabled_map : pydict str) (lines : list str) :
  forall runtime_services,
    dict_keys (fold_left (runtime_next enabled_map) lines runtime_services)
    = fold_left add_distinct (live_units lines) (dict_keys runtime_services).
Proof.
  induction lines as [|line lines IH]; intros rs; [reflexivity|].
  cbn [fold_left live_units flat_map]. rewrite fold_left_app, IH.
  f_equal. unfold runtime_next, parse_unit_line.
  destruct (length (unit_line_parts line) <? 5)%nat; [reflexivity|].
  rewrite dict_keys_set_distinct; reflexivity.
Qed.

Lemma enabled_map_fold_keys (lines : list str) :
  forall enabled_map,
    dict_keys (fold_left enabled_map_next lines enabled_map)
    = fold_left add_distinct (unit_files lines) (dict_keys enabled_map).
Proof.
  induction lines as [|line lines IH]; intros em; [reflexivity|].
  cbn [fold_left unit_files flat_map]. rewrite fold_left_app, IH.
  f_equal. unfold enabled_map_next.
  destruct (split line) as [|u [|s rest]]; try reflexivity.
  rewrite dict_keys_set_distinct; reflexivity.
Qed.

Lemma map_fst_filter (V : Type) (keep : str -> bool) (d : pydict V) :
  map fst (filter (fun item => keep (fst item)) d)
  = filter keep (map fst d).
Proof.
  induction d as [|[k v] d IH]; simpl; [reflexivity|].
  destruct (keep k); simpl; rewrite IH; reflexivity.
Qed.

(** X3.  The unit column of the returned list: the live units in the
    order the manager first reports them, then the unit files that are not
    live units, in the order the enablement listing first reports them
    (none when that listing failed). *)
Theorem merged_list_order
    (subprocess_run : list str -> outcome CompletedProcess)
    (code : Z) (out err out' err' : str) :
  run_command subprocess_run LIST_UNIT_FILES_CMD false
  = Returned (code, out, err) ->
  run_command subprocess_run LIST_UNITS_CMD false
  = Returned (0%Z, out', err') ->
  exists services,
    get_services_list subprocess_run = Returned services /\
    map svc_unit services =
    distinct_in_order (live_units (splitlines out')) ++
    filter (fun u => negb (mem u (live_units (splitlines out'))))
      (distinct_in_order
         (if (code =? 0)%Z then unit_files (splitlines out) else [])).
Proof.
  intros H1 H2.
  eexists; split; [apply (get_services_list_returns _ H1 H2)|].
  rewrite merged_units.
  unfold runtime_services_of at 1; rewrite runtime_fold_keys.
  fold (distinct_in_order (live_units (splitlines out'))).
  f_equal. unfold install_only, dict_items.
  rewrite (map_fst_filter
             (fun u => negb (dict_contains u
                               (runtime_services_of (enabled_map_of code out) out')))).
  assert (K : dict_keys (enabled_map_of code out)
              = distinct_in_order
                  (if (code =? 0)%Z then unit_files (splitlines out) else [])).
  { unfold enabled_map_of; destruct (code =? 0)%Z; [|reflexivity].
    apply enabled_map_fold_keys. }
  fold (dict_keys (enabled_map_of code out)); rewrite K.
  apply filter_ext; intros u. f_equal.
  rewrite dict_contains_mem.
  unfold runtime_services_of; rewrite runtime_fold_keys.
  rewrite mem_add_distinct; reflexivity.
Qed.

Lemma merged_list_order_witness :
  exists services,
    get_services_list sample_host = Returned services /\
    map svc_unit services
    = [lit "ssh.service"; lit "x.service"; lit "foo.service"].
Proof.
  destruct (@merged_list_order sample_host 0%Z sample_unit_files []
              sample_units [])
    as (services & G & O); try (vm_compute; reflexivity).
  exists services; split; [exact G|].
  rewrite O; vm_compute; reflexivity.
Defined.

(** ** Repeated units and where records come from *)

Lemma runtime_next_other (enabled_map : pydict str)
    (runtime_services : pydict ServiceRecord) (line u : str) :
  (5 <= length (unit_line_parts line) ->
   nth 0 (unit_line_parts line) [] <> u) ->
  dict_get u (runtime_next enabled_map runtime_services line)
  = dict_get u runtime_services.
Proof.
  intros H; unfold runtime_next.
  destruct (parse_unit_line enabled_map line) as [r|] eqn:P; [|reflexivity].
  apply parse_unit_line_unit in P as (L & U & _).
  apply dict_get_set_other; rewrite U; auto.
Qed.

Lemma runtime_fold_other (enabled_map : pydict str) (lines : list str)
    (u : str) :
  (forall line, In line lines ->
     5 <= length (unit_line_parts line) ->
     nth 0 (unit_line_parts line) [] <> u) ->
  forall runtime_services,
    dict_get u (fold_left (runtime_next enabled_map) lines runtime_services)
    = dict_get u runtime_services.
Proof.
  induction lines as [|line lines IH]; intros H rs; simpl; [reflexivity|].
  rewrite IH by (intros l Hl; apply H; right; exact Hl).
  apply runtime_next_other, H; left; reflexivity.
Qed.

Lemma runtime_fold_origin (enabled_map : pydict str) (lines : list str)
    (k : str) (r : ServiceRecord) :
  forall runtime_services,
    In (k, r) (fold_left (runtime_next enabled_map) lines runtime_services) ->
    In (k, r) runtime_services \/
    exists line, In line lines /\ parse_unit_line enabled_map line = Some r.
Proof.
  induction lines as [|line lines IH]; intros rs H; simpl in *; [auto|].
  destruct (IH _ H) as [H1|(l & Hl & P)].
  - unfold runtime_next in H1.
    destruct (parse_unit_line enabled_map line) as [r'|] eqn:P; auto.
    apply dict_set_In in H1 as [[-> ->]|H1]; auto.
    right; exists line; auto.
  - right; exists l; auto.
Qed.

Lemma build_enabled_map_value (code : Z) (out : str)
    (enabled_map : pydict str) :
  build_enabled_map code out = Returned enabled_map ->
  enabled_map = enabled_map_of code out.
Proof. rewrite build_enabled_map_returns; congruence. Qed.

(** X4.  When several lines of the live-units output name the same unit,
    the list holds one record for it, that of the last such line. *)
Theorem repeated_live_unit_last_wins
    (subprocess_run : list str -> outcome CompletedProcess)
    (code : Z) (out err out' err' : str) (enabled_map : pydict str)
    (pre post : list str) (line : str) (r : ServiceRecord) :
  run_command subprocess_run LIST_UNIT_FILES_CMD false
  = Returned (code, out, err) ->
  run_command subprocess_run LIST_UNITS_CMD false
  = Returned (0%Z, out', err') ->
  build_enabled_map code out = Returned enabled_map ->
  splitlines out' = pre ++ line :: post ->
  parse_unit_line enabled_map line = Some r ->
  (forall line', In line' post ->
     5 <= length (unit_line_parts line') ->
     nth 0 (unit_line_parts line') [] <> svc_unit r) ->
  exists services,
    get_services_list subprocess_run = Returned services /\
    records_of (svc_unit r) services = [r].
Proof.
  intros H1 H2 B E P Hpost.
  apply build_enabled_map_value in B; subst enabled_map.
  eexists; split; [apply (get_services_list_returns _ H1 H2)|].
  apply records_of_unique; [apply merged_NoDup|].
  unfold merged; apply in_or_app; left.
  unfold dict_values, runtime_services_of.
  apply (in_map snd _ (svc_unit r, r)), dict_get_In.
  rewrite E, fold_left_app; simpl.
  rewrite (runtime_fold_other _ post Hpost).
  unfold runtime_next at 1; rewrite P. apply dict_get_set_same.
Qed.

Lemma repeated_live_unit_last_wins_witness :
  exists services,
    get_services_list repeat_host = Returned services /\
    records_of (lit "a.service") services = [repeat_record].
Proof.
  apply (@repeated_live_unit_last_wins repeat_host 1%Z [] [] repeat_units []
           [] [lit "a.service loaded active running First"] []
           (lit "a.service loaded failed failed Second") repeat_record);
    try (vm_compute; reflexivity).
  intros line' [].
Defined.

(** X5.  Nothing in the returned list is made up: each record is the one
    stored for some line of the live-units output, or it is the
    placeholder of a unit file that a line of a successful enablement
    listing names and no accepted live line names, carrying the state the
    mapping holds for it. *)
Theorem every_record_has_a_line
    (subprocess_run : list str -> outcome CompletedProcess)
    (code : Z) (out err out' err' : str) (enabled_map : pydict str)
    (services : list ServiceRecord) (r : ServiceRecord) :
  run_command subprocess_run LIST_UNIT_FILES_CMD false
  = Returned (code, out, err) ->
  run_command subprocess_run LIST_UNITS_CMD false
  = Returned (0%Z, out', err') ->
  build_enabled_map code out = Returned enabled_map ->
  get_services_list subprocess_run = Returned services ->
  In r services ->
  (exists line,
     In line (splitlines out') /\ parse_unit_line enabled_map line = Some r) \/
  (code = 0%Z /\
   (exists line state rest,
      In line (splitlines out) /\ split line = svc_unit r :: state :: rest) /\
   ~ In (svc_unit r) (live_units (splitlines out')) /\
   dict_get (svc_unit r) enabled_map = Some (svc_enabled r) /\
   r = {| svc_unit := svc_unit r;
          svc_load := lit "n/a";
          svc_active := lit "inactive";
          svc_sub := lit "dead";
          svc_description := lit "Not loaded (available to enable/start)";
          svc_enabled := svc_enabled r |}).
Proof.
  intros H1 H2 B G Hr.
  apply build_enabled_map_value in B; subst enabled_map.
  rewrite (get_services_list_returns _ H1 H2) in G.
  injection G as <-.
  set (em := enabled_map_of code out) in *.
  unfold merged, merged_tail in Hr.
  apply in_app_or in Hr as [Hr|Hr].
  - left. unfold dict_values in Hr.
    apply in_map_iff in Hr as ([k r'] & <- & Hr); simpl.
    apply runtime_fold_origin in Hr as [[]|Hr]; exact Hr.
  - right. apply in_map_iff in Hr as ([u s] & <- & Hr); simpl in *.
    apply filter_In in Hr as [Hin Hc]; simpl in Hc.
    assert (Hk : In u (dict_keys em)) by (apply (in_map fst) in Hin; exact Hin).
    unfold em, enabled_map_of in Hk.
    destruct (code =? 0)%Z eqn:C; [|destruct Hk].
    apply Z.eqb_eq in C.
    apply enabled_map_fold_key in Hk as [[]|(line & s' & rest & Hl & E)].
    split; [exact C|].
    split; [exists line, s', rest; auto|].
    split.
    + intros L. apply mem_In in L.
      rewrite dict_contains_mem in Hc.
      unfold runtime_services_of in Hc; rewrite runtime_fold_keys in Hc.
      rewrite mem_add_distinct, L in Hc; discriminate.
    + split; [|reflexivity].
      apply In_dict_get; [apply enabled_map_of_NoDup | exact Hin].
Qed.

Lemma every_record_has_a_line_witness :
  (exists line,
     In line (splitlines sample_units) /\
     parse_unit_line (enabled_map_of 0 sample_unit_files) line
     = Some (not_loaded (lit "foo.service") (lit "masked"))) \/
  (0%Z = 0%Z /\
   (exists line state rest,
      In line (splitlines sample_unit_files) /\
      split line = lit "foo.service" :: state :: rest) /\
   ~ In (lit "foo.service") (live_units (splitlines sample_units)) /\
   dict_get (lit "foo.service") (enabled_map_of 0 sample_unit_files)
   = Some (lit "masked") /\
   not_loaded (lit "foo.service") (lit "masked")
   = not_loaded (lit "foo.service") (lit "masked")).
Proof.
  apply (@every_record_has_a_line sample_host 0%Z sample_unit_files []
           sample_units [] (enabled_map_of 0 sample_unit_files)
           sample_services (not_loaded (lit "foo.service") (lit "masked")));
    try (vm_compute; reflexivity).
  vm_compute; auto.
Defined.

(** ** A host without the service manager *)

(** X6.  When the host cannot find the executable for the live-units
    listing, collection fails with the runner's message behind the
    collector's prefix; when it is the enablement listing the host fails
    to run (whatever it raises) and the live-units listing succeeds, the
    list is returned all the same, with the live units alone. *)
Theorem host_failures_reported
    (subprocess_run : list str -> outcome CompletedProcess) :
  (forall ex,
     subprocess_run LIST_UNITS_CMD = Raised (FileNotFoundError ex) ->
     get_services_list subprocess_run
     = Raised (RuntimeError
                 (lit "Failed to list services:Command not found: " ++ ex))) /\
  (forall e proc,
     subprocess_run LIST_UNIT_FILES_CMD = Raised e ->
     subprocess_run LIST_UNITS_CMD = Returned proc ->
     returncode proc = 0%Z ->
     exists runtime_services,
       build_runtime_services [] (stdout proc) = Returned runtime_services /\
       get_services_list subprocess_run
       = Returned (dict_values runtime_services)).
Proof.
  split.
  - intros ex H.
    assert (H2 : run_command subprocess_run LIST_UNITS_CMD false
                 = Returned (1%Z, [], lit "Command not found: " ++ ex)).
    { unfold run_command, full_cmd; rewrite H; reflexivity. }
    destruct (run_command_returns subprocess_run LIST_UNIT_FILES_CMD false)
      as (code & out & err & H1).
    unfold get_services_list. rewrite H1; simpl.
    rewrite build_enabled_map_returns; simpl. rewrite H2; reflexivity.
  - intros e proc He Hp Hc.
    assert (H1 : exists err,
               run_command subprocess_run LIST_UNIT_FILES_CMD false
               = Returned (1%Z, [], err)).
    { unfold run_command, full_cmd; rewrite He.
      destruct e; eexists; reflexivity. }
    destruct H1 as [err H1].
    assert (H2 : run_command subprocess_run LIST_UNITS_CMD false
                 = Returned (0%Z, stdout proc, stderr proc)).
    { unfold run_command, full_cmd; rewrite Hp, Hc; reflexivity. }
    exists (runtime_services_of [] (stdout proc)).
    split; [apply build_runtime_services_returns|].
    rewrite (get_services_list_returns _ H1 H2).
    unfold merged, merged_tail; simpl. rewrite app_nil_r; reflexivity.
Qed.

Lemma host_failures_reported_witness :
  get_services_list bare_host
  = Raised (RuntimeError
              (lit "Failed to list services:Command not found: [Errno 2] No such file or directory: systemctl")).
Proof.
  rewrite (proj1 (host_failures_reported bare_host)
             (lit "[Errno 2] No such file or directory: systemctl"));
    vm_compute; reflexivity.
Defined.

Lemma get_service_status_returns
    (subprocess_run : list str -> outcome CompletedProcess) (unit : str) :
  exists text, get_service_status subprocess_run unit = Returned text.
Proof.
  unfold get_service_status.
  destruct (run_command_returns subprocess_run
              [lit "systemctl"; lit "status"; unit; lit "--no-pager"] false)
    as (code & out & err & ->); simpl.
  destruct (code =? 0)%Z; eexists; reflexivity.
Qed.

(** X7.  [get_service_status] never raises.  It asks for the status
    unelevated; a zero exit gives the standard output alone, any other
    exit the standard output, a line feed and the standard error, and a
    missing executable a line feed and the runner's message. *)
Theorem get_service_status_text
    (subprocess_run : list str -> outcome CompletedProcess) (unit : str) :
  (exists text, get_service_status subprocess_run unit = Returned text) /\
  (forall proc,
     subprocess_run [lit "systemctl"; lit "status"; unit; lit "--no-pager"]
     = Returned proc ->
     get_service_status subprocess_run unit
     = Returned (if (returncode proc =? 0)%Z then stdout proc
                 else stdout proc ++ [LF] ++ stderr proc)) /\
  (forall ex,
     subprocess_run [lit "systemctl"; lit "status"; unit; lit "--no-pager"]
     = Raised (FileNotFoundError ex) ->
     get_service_status subprocess_run unit
     = Returned ([LF] ++ lit "Command not found: " ++ ex)).
Proof.
  split; [apply get_service_status_returns|].
  unfold get_service_status, run_command, full_cmd.
  split.
  - intros proc ->; simpl.
    destruct (returncode proc =? 0)%Z; reflexivity.
  - intros ex ->; reflexivity.
Qed.

Lemma get_service_status_text_witness :
  get_service_status bare_host (lit "ssh.service")
  = Returned ([LF] ++
              lit "Command not found: [Errno 2] No such file or directory: systemctl").
Proof.
  rewrite (proj2 (proj2 (get_service_status_text bare_host (lit "ssh.service")))
             (lit "[Errno 2] No such file or directory: systemctl"));
    vm_compute; reflexivity.
Defined.

(** ** More on the buttons *)

Lemma update_buttons_keeps_table (w : ServiceManagerWindow) :
  model (update_buttons_enabled_state w) = model w /\
  selection_model (update_buttons_enabled_state w) = selection_model w.
Proof.
  unfold update_buttons_enabled_state.
  destruct (negb (negb (is_empty (get_selected_unit w))));
    [split; reflexivity|].
  destruct (str_eqb (fst (get_selected_row_states w)) (lit "active"));
    destruct (str_eqb (snd (get_selected_row_states w)) (lit "enabled"));
    destruct (str_eqb (snd (get_selected_row_states w)) (lit "disabled"));
    destruct (str_eqb (snd (get_selected_row_states w)) (lit "masked"));
    split; reflexivity.
Qed.

Lemma selected_reads_table (w w' : ServiceManagerWindow) :
  model w = model w' ->
  selection_model w = selection_model w' ->
  get_selected_unit w = get_selected_unit w' /\
  get_selected_row_states w = get_selected_row_states w'.
Proof.
  intros M S.
  unfold get_selected_unit, get_selected_row_states, model_data.
  rewrite M, S; split; reflexivity.
Qed.

Lemma update_buttons_same_table (w w' : ServiceManagerWindow) (btn : Button) :
  model w = model w' ->
  selection_model w = selection_model w' ->
  isEnabled (update_buttons_enabled_state w) btn
  = isEnabled (update_buttons_enabled_state w') btn.
Proof.
  intros M S.
  destruct (selected_reads_table w w' M S) as [U R].
  destruct (get_selected_unit w) as [|c u] eqn:E.
  - rewrite !update_buttons_unselected; [reflexivity | congruence | exact E].
  - destruct (get_selected_row_states w) as [a e] eqn:Es.
    rewrite (@update_buttons_selected w a e btn),
            (@update_buttons_selected w' a e btn);
      try reflexivity; try congruence.
Qed.

(** X8.  The button flags are derived, not tracked: updating them leaves
    the table and the selection as they are, the flags it sets do not
    depend on the flags the buttons had, and updating twice is updating
    once. *)
Theorem buttons_derived_not_tracked (w w' : ServiceManagerWindow) :
  model w = model w' ->
  selection_model w = selection_model w' ->
  model (update_buttons_enabled_state w) = model w /\
  selection_model (update_buttons_enabled_state w) = selection_model w /\
  (forall btn,
     isEnabled (update_buttons_enabled_state w) btn
     = isEnabled (update_buttons_enabled_state w') btn) /\
  (forall btn,
     isEnabled (update_buttons_enabled_state (update_buttons_enabled_state w))
       btn
     = isEnabled (update_buttons_enabled_state w) btn).
Proof.
  intros M S.
  destruct (update_buttons_keeps_table w) as [Km Ks].
  split; [exact Km|]. split; [exact Ks|]. split.
  - intros btn; apply update_buttons_same_table; assumption.
  - intros btn; apply update_buttons_same_table; assumption.
Qed.

Lemma buttons_derived_not_tracked_witness :
  map (isEnabled (update_buttons_enabled_state sample_window_all_on))
    all_buttons
  = map (isEnabled (update_buttons_enabled_state sample_window)) all_buttons.
Proof.
  destruct (@buttons_derived_not_tracked sample_window_all_on sample_window)
    as (_ & _ & H & _);
    [vm_compute; reflexivity | vm_compute; reflexivity |].
  apply map_ext, H.
Defined.

(** X9.  A selection that points past the last row of the table counts as
    no selection: every button is off.  So it is with an empty table. *)
Theorem selection_past_table_is_none (w : ServiceManagerWindow)
    (services : list ServiceRecord) (row : nat) (others : list nat) :
  model w = model (populate_model services w) ->
  selection_model w = Some (row :: others) ->
  length services <= row ->
  get_selected_unit w = [] /\
  get_selected_row_states w = ([], []) /\
  forall btn, isEnabled (update_buttons_enabled_state w) btn = false.
Proof.
  intros M S L.
  rewrite populate_model_rows in M.
  assert (D : forall c, model_data w row c = None).
  { intros c; unfold model_data.
    assert (N : nth_error (model w) row = None).
    { apply nth_error_None; rewrite M, length_map; exact L. }
    rewrite N; reflexivity. }
  assert (U : get_selected_unit w = []).
  { unfold get_selected_unit; rewrite S, D; reflexivity. }
  split; [exact U|].
  split; [unfold get_selected_row_states; rewrite S, !D; reflexivity|].
  intros btn; apply update_buttons_unselected, U.
Qed.

Lemma selection_past_table_is_none_witness :
  map (isEnabled (update_buttons_enabled_state sample_window_stale))
    all_buttons
  = map (fun _ => false) all_buttons.
Proof.
  destruct (@selection_past_table_is_none sample_window_stale
              sample_services 3 [])
    as (_ & _ & H);
    [vm_compute; reflexivity | vm_compute; reflexivity | vm_compute; lia |].
  apply map_ext, H.
Defined.

(** ** The colour and the buttons together *)

Lemma state_color_black (a e : str) :
  service_state_color a e = QColor_of (lit "black")
  <-> str_eqb e (lit "disabled") || str_eqb e (lit "masked") = true.
Proof.
  unfold service_state_color.
  destruct (str_eqb e (lit "disabled") || str_eqb e (lit "masked")).
  - split; reflexivity.
  - destruct (str_eqb a (lit "active")); split; intros H;
      try discriminate; vm_compute in H; discriminate.
Qed.

Lemma state_color_green (a e : str) :
  service_state_color a e = QColor_of (lit "green") ->
  str_eqb a (lit "active") = true.
Proof.
  unfold service_state_color.
  destruct (str_eqb e (lit "disabled") || str_eqb e (lit "masked"));
    destruct (str_eqb a (lit "active")); intros H;
    try reflexivity; vm_compute in H; discriminate.
Qed.

Lemma state_color_red (a e : str) :
  service_state_color a e = QColor_of (lit "red") ->
  str_eqb a (lit "active") = false.
Proof.
  unfold service_state_color.
  destruct (str_eqb e (lit "disabled") || str_eqb e (lit "masked"));
    destruct (str_eqb a (lit "active")); intros H;
    try reflexivity; vm_compute in H; discriminate.
Qed.

Lemma disable_flag (e : str) :
  (if str_eqb e (lit "enabled") then true
   else if str_eqb e (lit "disabled") then false
   else if str_eqb e (lit "masked") then false else true)
  = negb (str_eqb e (lit "disabled") || str_eqb e (lit "masked")).
Proof.
  str_cases e (lit "enabled"); [subst e; vm_compute; reflexivity|].
  destruct (str_eqb e (lit "disabled")), (str_eqb e (lit "masked"));
    reflexivity.
Qed.

(** X10.  For the selected service the indicator and the buttons agree:
    the indicator is black exactly when Disable is off; a green indicator
    comes with Stop on and Start off, a red one with Start on and Stop
    off. *)
Theorem indicator_agrees_with_buttons (w : ServiceManagerWindow)
    (services : list ServiceRecord) (row : nat) (others : list nat)
    (svc : ServiceRecord) :
  model w = model (populate_model services w) ->
  selection_model w = Some (row :: others) ->
  nth_error services row = Some svc ->
  svc_unit svc <> [] ->
  (service_state_color (svc_active svc) (svc_enabled svc)
   = QColor_of (lit "black")
   <-> isEnabled (update_buttons_enabled_state w) disable_button = false) /\
  (service_state_color (svc_active svc) (svc_enabled svc)
   = QColor_of (lit "green") ->
   isEnabled (update_buttons_enabled_state w) stop_button = true /\
   isEnabled (update_buttons_enabled_state w) start_button = false) /\
  (service_state_color (svc_active svc) (svc_enabled svc)
   = QColor_of (lit "red") ->
   isEnabled (update_buttons_enabled_state w) start_button = true /\
   isEnabled (update_buttons_enabled_state w) stop_button = false).
Proof.
  intros M Sel Hrow U.
  destruct (selected_row_fields w services M Sel Hrow U) as [Eu Es].
  assert (Hu : get_selected_unit w <> []) by (rewrite Eu; exact U).
  pose proof (fun btn => update_buttons_selected w btn Hu Es) as B.
  rewrite !B, disable_flag, negb_false_iff.
  split; [apply state_color_black|].
  split; intros H.
  - apply state_color_green in H; rewrite H; auto.
  - apply state_color_red in H; rewrite H; auto.
Qed.

Lemma indicator_agrees_with_buttons_witness :
  (service_state_color (lit "failed") (lit "?") = QColor_of (lit "black")
   <-> isEnabled (update_buttons_enabled_state sample_window) disable_button
       = false) /\
  (service_state_color (lit "failed") (lit "?") = QColor_of (lit "green") ->
   isEnabled (update_buttons_enabled_state sample_window) stop_button = true /\
   isEnabled (update_buttons_enabled_state sample_window) start_button = false) /\
  (service_state_color (lit "failed") (lit "?") = QColor_of (lit "red") ->
   isEnabled (update_buttons_enabled_state sample_window) start_button = true /\
   isEnabled (update_buttons_enabled_state sample_window) stop_button = false).
Proof.
  apply (@indicator_agrees_with_buttons sample_window sample_services 1 []
           {| svc_unit := lit "x.service"; svc_load := lit "loaded";
              svc_active := lit "failed"; svc_sub := lit "failed";
              svc_description := lit "X"; svc_enabled := lit "?" |}).
  - rewrite populate_model_rows; reflexivity.
  - reflexivity.
  - vm_compute; reflexivity.
  - vm_compute; discriminate.
Defined.


(** ** The methods of the window *)

Lemma refresh_services_trace
    (subprocess_run : list str -> outcome CompletedProcess) :
  refresh_services subprocess_run =
  match get_services_list subprocess_run with
  | Returned services =>
      ([statusBar_showMessage (lit "Loading services...");
        setOverrideCursor;
        call_populate_model services;
        statusBar_showMessage
          (lit "Loaded " ++ str_of_Z (Z.of_nat (length services)) ++
           lit " services.");
        restoreOverrideCursor;
        call_update_buttons_enabled_state;
        details_edit_clear], Returned tt)
  | Raised ex =>
      ([statusBar_showMessage (lit "Loading services...");
        setOverrideCursor;
        restoreOverrideCursor;
        statusBar_showMessage (lit "Error loading services.");
        QMessageBox_critical (lit "Error")
          (lit "Failed to load services:" ++ [LF] ++ exc_str ex);
        restoreOverrideCursor], Returned tt)
  end.
Proof.
  unfold refresh_services.
  destruct (get_services_list subprocess_run); reflexivity.
Qed.

(** X11.  [refresh_services] never raises.  When the live-units listing
    exits with zero it fills the table with the list [get_services_list]
    returns, reports its length, updates the buttons and clears the
    details; otherwise it leaves table, buttons and details alone and
    shows one error dialog with the collector's message and the captured
    stderr. *)
Theorem refresh_services_outcome
    (subprocess_run : list str -> outcome CompletedProcess)
    (code : Z) (out err : str) :
  run_command subprocess_run LIST_UNITS_CMD false = Returned (code, out, err) ->
  snd (refresh_services subprocess_run) = Returned tt /\
  (code <> 0%Z ->
   fst (refresh_services subprocess_run)
   = [statusBar_showMessage (lit "Loading services...");
      setOverrideCursor;
      restoreOverrideCursor;
      statusBar_showMessage (lit "Error loading services.");
      QMessageBox_critical (lit "Error")
        (lit "Failed to load services:" ++ [LF] ++
         lit "Failed to list services:" ++ err);
      restoreOverrideCursor]) /\
  (code = 0%Z ->
   exists services,
     get_services_list subprocess_run = Returned services /\
     fst (refresh_services subprocess_run)
     = [statusBar_showMessage (lit "Loading services...");
        setOverrideCursor;
        call_populate_model services;
        statusBar_showMessage
          (lit "Loaded " ++ str_of_Z (Z.of_nat (length services)) ++
           lit " services.");
        restoreOverrideCursor;
        call_update_buttons_enabled_state;
        details_edit_clear]).
Proof.
  intros H2. rewrite refresh_services_trace.
  destruct (run_command_returns subprocess_run LIST_UNIT_FILES_CMD false)
    as (c & o & e & H1).
  split; [destruct (get_services_list subprocess_run); reflexivity|].
  split.
  - intros N.
    assert (G : get_services_list subprocess_run
                = Raised (RuntimeError (lit "Failed to list services:" ++ err))).
    { unfold get_services_list. rewrite H1; simpl.
      rewrite build_enabled_map_returns; simpl. rewrite H2; simpl.
      apply Z.eqb_neq in N; rewrite N; reflexivity. }
    rewrite G; reflexivity.
  - intros ->. rewrite (get_services_list_returns _ H1 H2).
    eexists; split; reflexivity.
Qed.

Lemma refresh_services_outcome_witness :
  fst (refresh_services units_fail_host)
  = [statusBar_showMessage (lit "Loading services...");
     setOverrideCursor;
     restoreOverrideCursor;
     statusBar_showMessage (lit "Error loading services.");
     QMessageBox_critical (lit "Error")
       (lit "Failed to load services:" ++ [LF] ++
        lit "Failed to list services:" ++ lit "Failed to connect to bus");
     restoreOverrideCursor].
Proof.
  apply (proj1 (proj2 (@refresh_services_outcome units_fail_host 1%Z
                         sample_units (lit "Failed to connect to bus")
                         ltac:(vm_compute; reflexivity)))).
  discriminate.
Defined.

Lemma cursor_depth_app (a b : list UiCall) (depth : nat) :
  cursor_depth (a ++ b) depth = cursor_depth b (cursor_depth a depth).
Proof. apply fold_left_app. Qed.

Lemma refresh_services_cursor
    (subprocess_run : list str -> outcome CompletedProcess) :
  cursor_depth (fst (refresh_services subprocess_run)) 0 = 0.
Proof.
  rewrite refresh_services_trace.
  destruct (get_services_list subprocess_run); reflexivity.
Qed.

Lemma refresh_services_returns
    (subprocess_run : list str -> outcome CompletedProcess) :
  snd (refresh_services subprocess_run) = Returned tt.
Proof.
  rewrite refresh_services_trace.
  destruct (get_services_list subprocess_run); reflexivity.
Qed.

Lemma show_status_trace
    (subprocess_run : list str -> outcome CompletedProcess)
    (w : ServiceManagerWindow) (auto : bool) :
  show_status_for_selected subprocess_run w auto =
  if is_empty (get_selected_unit w) then
    ((if negb auto
      then [QMessageBox_warning (lit "No selection")
              (lit "Please select a service first.")]
      else []) ++ [details_edit_clear], Returned tt)
  else
    match get_service_status subprocess_run (get_selected_unit w) with
    | Returned status_text =>
        ([statusBar_showMessage
            (lit "Loading status for " ++ get_selected_unit w ++ lit "...");
          setOverrideCursor;
          restoreOverrideCursor;
          details_edit_setPlainText status_text;
          statusBar_showMessage
            (lit "Status loaded for " ++ get_selected_unit w ++ lit ".")],
         Returned tt)
    | Raised e =>
        ([statusBar_showMessage
            (lit "Loading status for " ++ get_selected_unit w ++ lit "...");
          setOverrideCursor], Raised e)
    end.
Proof.
  unfold show_status_for_selected.
  destruct (is_empty (get_selected_unit w)); [destruct auto; reflexivity|].
  destruct (get_service_status subprocess_run (get_selected_unit w));
    reflexivity.
Qed.

Lemma ui_bind_returned (A B : Type) (m : ui A) (k : A -> ui B) (a : A) :
  snd m = Returned a -> ui_bind m k = (fst m ++ fst (k a), snd (k a)).
Proof. unfold ui_bind; intros ->; reflexivity. Qed.

Lemma run_action_trace
    (subprocess_run : list str -> outcome CompletedProcess)
    (w : ServiceManagerWindow) (action : str) (code : Z) (out err : str) :
  is_empty (get_selected_unit w) = false ->
  mem action valid_actions = true ->
  run_command subprocess_run
    [lit "systemctl"; action; get_selected_unit w] true
  = Returned (code, out, err) ->
  run_action subprocess_run w action =
  if (code =? 0)%Z then
    ([statusBar_showMessage
        (lit "Running '" ++ action ++ lit "' on " ++ get_selected_unit w ++
         lit "...");
      setOverrideCursor;
      restoreOverrideCursor;
      statusBar_showMessage
        (lit "Action '" ++ action ++ lit "' completed successfully for " ++
         get_selected_unit w ++ lit ".")] ++
     fst (refresh_services subprocess_run) ++
     [QMessageBox_information (lit "Success")
        (lit "Action '" ++ action ++ lit "' completed successfully for:" ++
         [LF] ++ get_selected_unit w)],
     Returned tt)
  else
    ([statusBar_showMessage
        (lit "Running '" ++ action ++ lit "' on " ++ get_selected_unit w ++
         lit "...");
      setOverrideCursor;
      restoreOverrideCursor;
      statusBar_showMessage
        (lit "Action '" ++ action ++ lit "' failed for " ++
         get_selected_unit w ++ lit ".");
      QMessageBox_critical (lit "Error")
        (lit "Action '" ++ action ++ lit "' failed for " ++
         get_selected_unit w ++ lit " (exit code " ++ str_of_Z code ++
         lit ")." ++ [LF; LF] ++ lit "Output:" ++ [LF] ++ out ++
         [LF; LF] ++ lit "Errors:" ++ [LF] ++ err)],
     Returned tt).
Proof.
  intros U A R. unfold run_action. rewrite U, A, R.
  cbn [negb ui_bind ui_lift ui_call fst snd app].
  destruct (code =? 0)%Z.
  - cbn [ui_bind ui_call fst snd app].
    rewrite (ui_bind_returned _ _ (refresh_services_returns subprocess_run)).
    reflexivity.
  - reflexivity.
Qed.

(** X12.  A control action never raises.  Without a selection, or with an
    action that is not one of the eight, it shows one dialog and does
    nothing else.  Otherwise it runs the action elevated on the selected
    unit: a non-zero exit is shown in an error dialog with the exit code,
    the standard output and the standard error, and the table is not
    refreshed; a zero exit refreshes the table and then confirms. *)
Theorem run_action_outcome
    (subprocess_run : list str -> outcome CompletedProcess)
    (w : ServiceManagerWindow) (action : str) :
  snd (run_action subprocess_run w action) = Returned tt /\
  (get_selected_unit w = [] ->
   fst (run_action subprocess_run w action)
   = [QMessageBox_warning (lit "No selection")
        (lit "Please select a service first.")]) /\
  (get_selected_unit w <> [] ->
   mem action valid_actions = false ->
   fst (run_action subprocess_run w action)
   = [QMessageBox_critical (lit "Error") (lit "Invalid action: " ++ action)]) /\
  (forall code out err,
     get_selected_unit w <> [] ->
     mem action valid_actions = true ->
     run_command subprocess_run
       [lit "systemctl"; action; get_selected_unit w] true
     = Returned (code, out, err) ->
     (code <> 0%Z ->
      fst (run_action subprocess_run w action)
      = [statusBar_showMessage
           (lit "Running '" ++ action ++ lit "' on " ++ get_selected_unit w ++
            lit "...");
         setOverrideCursor;
         restoreOverrideCursor;
         statusBar_showMessage
           (lit "Action '" ++ action ++ lit "' failed for " ++
            get_selected_unit w ++ lit ".");
         QMessageBox_critical (lit "Error")
           (lit "Action '" ++ action ++ lit "' failed for " ++
            get_selected_unit w ++ lit " (exit code " ++ str_of_Z code ++
            lit ")." ++ [LF; LF] ++ lit "Output:" ++ [LF] ++ out ++
            [LF; LF] ++ lit "Errors:" ++ [LF] ++ err)]) /\
     (code = 0%Z ->
      fst (run_action subprocess_run w action)
      = [statusBar_showMessage
           (lit "Running '" ++ action ++ lit "' on " ++ get_selected_unit w ++
            lit "...");
         setOverrideCursor;
         restoreOverrideCursor;
         statusBar_showMessage
           (lit "Action '" ++ action ++ lit "' completed successfully for " ++
            get_selected_unit w ++ lit ".")] ++
        fst (refresh_services subprocess_run) ++
        [QMessageBox_information (lit "Success")
           (lit "Action '" ++ action ++ lit "' completed successfully for:" ++
            [LF] ++ get_selected_unit w)])).
Proof.
  assert (Ends : snd (run_action subprocess_run w action) = Returned tt).
  { destruct (is_empty (get_selected_unit w)) eqn:U.
    - unfold run_action; rewrite U; reflexivity.
    - destruct (mem action valid_actions) eqn:A.
      + destruct (run_command_returns subprocess_run
                    [lit "systemctl"; action; get_selected_unit w] true)
          as (code & out & err & R).
        rewrite (run_action_trace _ _ _ U A R).
        destruct (code =? 0)%Z; reflexivity.
      + unfold run_action; rewrite U, A; reflexivity. }
  assert (Guard1 : get_selected_unit w = [] ->
                   run_action subprocess_run w action
                   = ui_call (QMessageBox_warning (lit "No selection")
                                (lit "Please select a service first."))).
  { intros E; unfold run_action; rewrite E; reflexivity. }
  assert (Guard2 : get_selected_unit w <> [] ->
                   mem action valid_actions = false ->
                   run_action subprocess_run w action
                   = ui_call (QMessageBox_critical (lit "Error")
                                (lit "Invalid action: " ++ action))).
  { intros N A; unfold run_action; rewrite A.
    destruct (get_selected_unit w); [contradiction | reflexivity]. }
  assert (NE : get_selected_unit w <> [] ->
               is_empty (get_selected_unit w) = false).
  { destruct (get_selected_unit w); [contradiction | reflexivity]. }
  split; [|split; [|split]].
  - exact Ends.
  - intros E; rewrite (Guard1 E); reflexivity.
  - intros N A; rewrite (Guard2 N A); reflexivity.
  - intros code out err N A R.
    rewrite (run_action_trace _ _ _ (NE N) A R).
    split.
    + intros C; apply Z.eqb_neq in C; rewrite C; reflexivity.
    + intros ->; reflexivity.
Qed.

Lemma run_action_outcome_witness :
  fst (run_action refusing_host sample_window (lit "stop"))
  = [statusBar_showMessage (lit "Running 'stop' on x.service...");
     setOverrideCursor;
     restoreOverrideCursor;
     statusBar_showMessage (lit "Action 'stop' failed for x.service.");
     QMessageBox_critical (lit "Error")
       (lit "Action 'stop' failed for x.service (exit code 4)." ++ [LF; LF] ++
        lit "Output:" ++ [LF] ++ [LF; LF] ++ lit "Errors:" ++ [LF] ++
        lit "Access denied")].
Proof.
  destruct (run_action_outcome refusing_host sample_window (lit "stop"))
    as (_ & _ & _ & H).
  destruct (H 4%Z [] (lit "Access denied")) as [F _];
    [vm_compute; discriminate | vm_compute; reflexivity
    | vm_compute; reflexivity |].
  rewrite F; [vm_compute; reflexivity | discriminate].
Defined.

(** X13.  No method leaves the wait cursor on: starting with no override
    cursor set, none is set when [refresh_services], [run_action],
    [show_status_for_selected] or [on_selection_changed] is done, on every
    host and for every selection and action. *)
Theorem wait_cursor_never_left_on
    (subprocess_run : list str -> outcome CompletedProcess)
    (w : ServiceManagerWindow) (action : str) (auto : bool) :
  cursor_depth (fst (refresh_services subprocess_run)) 0 = 0 /\
  cursor_depth (fst (run_action subprocess_run w action)) 0 = 0 /\
  cursor_depth (fst (show_status_for_selected subprocess_run w auto)) 0 = 0 /\
  cursor_depth (fst (on_selection_changed subprocess_run w)) 0 = 0.
Proof.
  assert (S : forall auto',
             cursor_depth
               (fst (show_status_for_selected subprocess_run w auto')) 0 = 0).
  { intros auto'. rewrite show_status_trace.
    destruct (is_empty (get_selected_unit w)); [destruct auto'; reflexivity|].
    destruct (get_service_status_returns subprocess_run (get_selected_unit w))
      as [text ->].
    reflexivity. }
  split; [apply refresh_services_cursor|].
  split; [|split; [apply S|]].
  - destruct (is_empty (get_selected_unit w)) eqn:U.
    + unfold run_action; rewrite U; reflexivity.
    + destruct (mem action valid_actions) eqn:A.
      * destruct (run_command_returns subprocess_run
                    [lit "systemctl"; action; get_selected_unit w] true)
          as (code & out & err & R).
        rewrite (run_action_trace _ _ _ U A R).
        destruct (code =? 0)%Z; [|reflexivity].
        cbn [fst]. rewrite !cursor_depth_app.
        match goal with
        | |- context [cursor_depth (fst _) ?d] => change d with 0
        end.
        rewrite refresh_services_cursor; reflexivity.
      * unfold run_action; rewrite U, A; reflexivity.
  - unfold on_selection_changed.
    rewrite (@ui_bind_returned _ _ _ _ tt) by reflexivity.
    cbn [fst]. rewrite cursor_depth_app. apply S.
Qed.

(** X14.  The commands the methods run.  The collector and the refresh
    depend on the host through the two unelevated listings alone, the
    status view through the unelevated status query of the selected unit,
    and a control action through the elevated action on the selected unit
    and the two listings: hosts that answer these alike give the same
    calls. *)
Theorem host_footprint
    (subprocess_run subprocess_run' : list str -> outcome CompletedProcess)
    (w : ServiceManagerWindow) (action : str) (auto : bool) :
  (subprocess_run LIST_UNIT_FILES_CMD = subprocess_run' LIST_UNIT_FILES_CMD ->
   subprocess_run LIST_UNITS_CMD = subprocess_run' LIST_UNITS_CMD ->
   get_services_list subprocess_run = get_services_list subprocess_run' /\
   refresh_services subprocess_run = refresh_services subprocess_run' /\
   (subprocess_run
      [lit "pkexec"; lit "/usr/bin/systemctl"; action; get_selected_unit w]
    = subprocess_run'
        [lit "pkexec"; lit "/usr/bin/systemctl"; action; get_selected_unit w] ->
    run_action subprocess_run w action = run_action subprocess_run' w action)) /\
  (subprocess_run
     [lit "systemctl"; lit "status"; get_selected_unit w; lit "--no-pager"]
   = subprocess_run'
       [lit "systemctl"; lit "status"; get_selected_unit w; lit "--no-pager"] ->
   show_status_for_selected subprocess_run w auto
   = show_status_for_selected subprocess_run' w auto).
Proof.
  split.
  - intros H1 H2.
    assert (G : get_services_list subprocess_run
                = get_services_list subprocess_run').
    { unfold get_services_list, run_command, full_cmd.
      rewrite H1, H2; reflexivity. }
    assert (F : refresh_services subprocess_run
                = refresh_services subprocess_run').
    { unfold refresh_services; rewrite G; reflexivity. }
    split; [exact G|]. split; [exact F|].
    intros H3. unfold run_action, run_command.
    change (full_cmd [lit "systemctl"; action; get_selected_unit w] true)
      with [lit "pkexec"; lit "/usr/bin/systemctl"; action;
            get_selected_unit w].
    rewrite H3, F; reflexivity.
  - intros H. unfold show_status_for_selected, get_service_status, run_command.
    change (full_cmd
              [lit "systemctl"; lit "status"; get_selected_unit w;
               lit "--no-pager"] false)
      with [lit "systemctl"; lit "status"; get_selected_unit w;
            lit "--no-pager"].
    rewrite H; reflexivity.
Qed.

Lemma host_footprint_witness :
  get_services_list sample_host
  = get_services_list
      (fun cmd =>
         if cmd_eqb cmd LIST_UNIT_FILES_CMD || cmd_eqb cmd LIST_UNITS_CMD
         then sample_host cmd else bare_host cmd).
Proof.
  apply (proj1 (@host_footprint sample_host
                  (fun cmd =>
                     if cmd_eqb cmd LIST_UNIT_FILES_CMD
                        || cmd_eqb cmd LIST_UNITS_CMD
                     then sample_host cmd else bare_host cmd)
                  sample_window (lit "stop") true));
    vm_compute; reflexivity.
Defined.
